(** * Story-image generator: image normalizer, workflow orchestrator, gateway

    Shallow embedding of [App.tsx] (the React component holding the workflow
    state, its handlers and the automatic analysis effect, and the helper
    [urlToDataUrl], the loading caption and the download handler), of the
    Gemini service module ([composeStoryImage], [generatePromptFromImage])
    and of its earlier version ([generateBackgroundImage]).

    - JavaScript numbers are IEEE 754 binary64 values: [Stdlib.Floats.SpecFloat]
      instantiated at precision 53 and maximal exponent 1024.
    - React state is a record; a handler's synchronous segment is the list of
      setter calls it queues, committed in order before the next render; an
      [await] splits a handler into the segment before it and a continuation
      run when the awaited promise settles.
    - The remote model is an oracle from requests to responses. *)

From Stdlib Require Import ZArith Bool List String Ascii Lia.
From Stdlib Require Import Floats.SpecFloat.
Import ListNotations.

Local Open Scope string_scope.

(** ** Settled promises *)

Inductive Outcome (A : Type) : Type :=
| Resolved (value : A)
| Rejected (message : string).
Arguments Resolved {A} value.
Arguments Rejected {A} message.

(** ** JavaScript numbers *)

Module JsNumber.
Local Open Scope Z_scope.

Definition prec : Z := 53.
Definition emax : Z := 1024.

Definition number := spec_float.

(** The Number denoting an integer (exact below 2^53, rounded above). *)
Definition of_Z (z : Z) : number := binary_normalize prec emax z 0 false.

Definition mul : number -> number -> number := SFmul prec emax.
Definition div : number -> number -> number := SFdiv prec emax.

Definition is_nan (x : number) : bool :=
  match x with S754_nan => true | _ => false end.

(** [Math.min(a, b)]: NaN if either argument is NaN, else the smaller one
    (-0 counts as smaller than +0). *)
Definition Math_min (a b : number) : number :=
  if is_nan a || is_nan b then S754_nan
  else match SFcompare a b with
       | Some Lt => a
       | Some Gt => b
       | _ => match a with S754_zero true => a | _ => b end
       end.

(** Integer part of a finite Number, rounding toward zero. *)
Definition truncate (x : number) : Z :=
  match x with
  | S754_finite s m e =>
      let mag := match e with
                 | Z0 => Zpos m
                 | Zpos p => Z.shiftl (Zpos m) (Zpos p)
                 | Zneg p => Z.shiftr (Zpos m) (Zpos p)
                 end in
      if s then Z.opp mag else mag
  | _ => 0
  end.

(** Web IDL conversion of a Number to [unsigned long], as performed by the
    setters of [canvas.width] and [canvas.height]: NaN and the infinities
    give 0, other values are truncated and reduced modulo 2^32. *)
Definition to_unsigned_long (x : number) : Z := (truncate x) mod 2 ^ 32.

End JsNumber.

(** ** Image normalizer: the URL path, [urlToDataUrl] *)

Module Normalizer.
Import JsNumber.
Local Open Scope Z_scope.

Definition MAX_DIMENSION : Z := 1024.

(** The [img.onload] computation of the canvas size from [naturalWidth] and
    [naturalHeight].  The result is [(canvas.width, canvas.height)], the
    pixel size of the image that [canvas.toDataURL] encodes. *)
Definition canvasSize (naturalWidth naturalHeight : Z) : Z * Z :=
  let width := of_Z naturalWidth in
  let height := of_Z naturalHeight in
  if (naturalWidth >? MAX_DIMENSION) || (naturalHeight >? MAX_DIMENSION) then
    let ratio := Math_min (div (of_Z MAX_DIMENSION) width)
                          (div (of_Z MAX_DIMENSION) height) in
    let width := mul width ratio in
    let height := mul height ratio in
    (to_unsigned_long width, to_unsigned_long height)
  else
    (to_unsigned_long width, to_unsigned_long height).

(** The same computation over exact rationals, for comparison: the scaled
    sizes are [w * 1024 / max w h] and [h * 1024 / max w h], truncated. *)
Definition idealSize (naturalWidth naturalHeight : Z) : Z * Z :=
  if (naturalWidth >? MAX_DIMENSION) || (naturalHeight >? MAX_DIMENSION) then
    let largest := Z.max naturalWidth naturalHeight in
    (naturalWidth * MAX_DIMENSION / largest,
     naturalHeight * MAX_DIMENSION / largest)
  else (naturalWidth, naturalHeight).

Definition PROXY_URL : string := "https://corsproxy.io/?".

Definition loadError : string :=
  "Não foi possível carregar a imagem da URL. Verifique se o link é válido e aponta diretamente para uma imagem.".
Definition contextError : string :=
  "Não foi possível obter o contexto 2D do canvas.".
Definition encodeError : string :=
  "Não foi possível converter a imagem para Data URL.".

(** What assigning [img.src] leads to: [onerror], or [onload] with the
    natural size of the decoded image. *)
Inductive Loaded :=
| OnError
| OnLoad (naturalWidth naturalHeight : Z).

Section Browser.

Variable load : string -> Loaded.
(** Whether [canvas.getContext('2d')] gives a context for a canvas size. *)
Variable getContext : Z * Z -> bool.
(** [canvas.toDataURL('image/jpeg', 0.95)] after drawing the image fetched
    from an address on a canvas of a size; [None] when it throws. *)
Variable toDataURL : string -> Z * Z -> option string.

Definition urlToDataUrl (url : string) : Outcome string :=
  let proxiedUrl := (PROXY_URL ++ url)%string in
  match load proxiedUrl with
  | OnError => Rejected loadError
  | OnLoad naturalWidth naturalHeight =>
      let size := canvasSize naturalWidth naturalHeight in
      if getContext size then
        match toDataURL proxiedUrl size with
        | Some dataURL => Resolved dataURL
        | None => Rejected encodeError
        end
      else Rejected contextError
  end.

End Browser.

End Normalizer.

(** ** Remote generation gateway: the Gemini service module *)

Module Gateway.

Definition LF : ascii := ascii_of_nat 10.
Definition CR : ascii := ascii_of_nat 13.

(** The characters that [.] refuses: LF, CR, U+2028 and U+2029 (the last
    two are the byte sequences E2 80 A8 and E2 80 A9 in a UTF-8 string). *)
Fixpoint has_line_terminator (s : string) : bool :=
  match s with
  | EmptyString => false
  | String c s' =>
      if Ascii.eqb c LF || Ascii.eqb c CR then true
      else
        match s' with
        | String c2 (String c3 _) =>
            if Ascii.eqb c (ascii_of_nat 226) && Ascii.eqb c2 (ascii_of_nat 128)
               && (Ascii.eqb c3 (ascii_of_nat 168) || Ascii.eqb c3 (ascii_of_nat 169))
            then true
            else has_line_terminator s'
        | _ => has_line_terminator s'
        end
  end.

Fixpoint strip_prefix (p s : string) : option string :=
  match p, s with
  | EmptyString, _ => Some s
  | String a p', String b s' => if Ascii.eqb a b then strip_prefix p' s' else None
  | String _ _, EmptyString => None
  end.

(** [.+] followed by [;base64,(.+)$], on input without line terminators.
    [taken] is what [.+] has consumed so far; the quantifier is greedy, so
    consuming one more character is tried before the literal. *)
Fixpoint split_greedy (taken s : string) : option (string * string) :=
  match s with
  | EmptyString => None
  | String c s' =>
      match split_greedy (taken ++ String c EmptyString) s' with
      | Some r => Some r
      | None =>
          match taken, strip_prefix ";base64," s with
          | String _ _, Some (String d payload) => Some (taken, String d payload)
          | _, _ => None
          end
      end
  end.

(** [s.match(/^data:(image\/.+);base64,(.+)$/)]: the two captured groups,
    or [None] for JavaScript's [null]. *)
Definition regex_match (s : string) : option (string * string) :=
  match strip_prefix "data:image/" s with
  | None => None
  | Some rest =>
      if has_line_terminator rest then None
      else match split_greedy "" rest with
           | Some (subtype, payload) => Some ("image/" ++ subtype, payload)
           | None => None
           end
  end.

Record InlineData := { mimeType : string; data : string }.

Record Request := {
  model : string;
  imagePart : InlineData;
  textPart : string;
  responseModalities : list string
}.

(** What the code reads of a [GenerateContentResponse]: the parts of the
    first candidate ([None] when [candidates[0].content.parts] cannot be
    reached, which throws a TypeError) and the [text] accessor. *)
Record Response := {
  parts : option (list (option InlineData));
  text : string
}.

Definition composePreamble : string :=
  "Usando a imagem do produto fornecida, coloque-a profissionalmente na cena a seguir, garantindo uma composição realista com sombras e iluminação adequadas. A imagem final deve ser uma imagem de story completa e de alta qualidade para mídias sociais (proporção 9:16). Descrição da cena: ".

Definition describeInstruction : string :=
  "Analise a imagem deste produto. Crie uma descrição detalhada e profissional para uma cena completa onde este produto seria o destaque, para uma postagem de story em redes sociais (formato 9:16). A descrição deve ser criativa, atraente e focar em uma estética moderna e limpa. Descreva o ambiente, a iluminação, os elementos de suporte, as cores e o clima. A resposta deve ser apenas a descrição gerada, em português.".

Definition composeFormatError : string :=
  "Formato de string base64 inválido para a imagem do produto.".
Definition describeFormatError : string :=
  "Formato de string base64 inválido.".
Definition noImageError : string := "Nenhuma imagem foi gerada pela API.".
Definition typeError : string := "TypeError".
Definition composeFailure : string :=
  "Falha ao compor a imagem a partir da API Gemini.".
Definition describeFailure : string :=
  "Falha ao gerar a descrição a partir da imagem.".

(** The result of an operation: how its promise settles, and the requests
    it sent to the remote model, in order. *)
Definition Run : Type := Outcome string * list Request.

(** [catch (error) { console.error(...); throw new Error(wrapped) }] *)
Definition catch_rethrow (wrapped : string) (r : Run) : Run :=
  match r with
  | (Rejected _, sent) => (Rejected wrapped, sent)
  | (Resolved v, sent) => (Resolved v, sent)
  end.

(** The [for ... of] loop of [composeStoryImage] over the response parts. *)
Fixpoint first_inline (ps : list (option InlineData)) : Outcome string :=
  match ps with
  | [] => Rejected noImageError
  | Some d :: _ => Resolved ("data:" ++ mimeType d ++ ";base64," ++ data d)
  | None :: ps' => first_inline ps'
  end.

Section Remote.

(** [ai.models.generateContent]: the remote model. *)
Variable generateContent : Request -> Outcome Response.

Definition composeStoryImage_try (productImageBase64 prompt : string) : Run :=
  match regex_match productImageBase64 with
  | None => (Rejected composeFormatError, [])
  | Some (mime, pureBase64) =>
      let request := {| model := "gemini-2.5-flash-image";
                        imagePart := {| mimeType := mime; data := pureBase64 |};
                        textPart := composePreamble ++ prompt;
                        responseModalities := ["IMAGE"] |} in
      match generateContent request with
      | Rejected e => (Rejected e, [request])
      | Resolved response =>
          match parts response with
          | None => (Rejected typeError, [request])
          | Some ps => (first_inline ps, [request])
          end
      end
  end.

Definition composeStoryImage (productImageBase64 prompt : string) : Run :=
  catch_rethrow composeFailure (composeStoryImage_try productImageBase64 prompt).

Definition generatePromptFromImage_try (imageBase64 : string) : Run :=
  match regex_match imageBase64 with
  | None => (Rejected describeFormatError, [])
  | Some (mime, pureBase64) =>
      let request := {| model := "gemini-2.5-flash";
                        imagePart := {| mimeType := mime; data := pureBase64 |};
                        textPart := describeInstruction;
                        responseModalities := [] |} in
      match generateContent request with
      | Rejected e => (Rejected e, [request])
      | Resolved response => (Resolved (text response), [request])
      end
  end.

Definition generatePromptFromImage (imageBase64 : string) : Run :=
  catch_rethrow describeFailure (generatePromptFromImage_try imageBase64).

End Remote.

End Gateway.

(** ** Workflow orchestrator: the [App] component *)

Module App.

Definition defaultPrompt : string :=
  "Um fundo vibrante e abstrato com toques de dourado e azul-petróleo, criando uma sensação luxuosa e moderna para a exibição de um produto.".

Definition analyzeFailure : string :=
  "Não foi possível analisar a imagem. Por favor, tente descrever o fundo manualmente.".
Definition importFallback : string :=
  "Ocorreu um erro desconhecido ao importar da URL.".
Definition composeFailure : string :=
  "Falha ao compor a imagem profissional. Por favor, tente novamente.".

(** The [useState] cells of the component.  [currentLoadingMessage], the
    rotating caption of the loading indicator, is presentation only and is
    left out. *)
Record WorkflowState := mkState {
  productImage : option string;
  prompt : string;
  isLoading : bool;
  error : option string;
  finalImageURI : option string;
  productUrl : string;
  isLoadingUrl : bool;
  isGeneratingPrompt : bool
}.

Definition initialState : WorkflowState :=
  {| productImage := None; prompt := defaultPrompt; isLoading := false;
     error := None; finalImageURI := None; productUrl := "";
     isLoadingUrl := false; isGeneratingPrompt := false |}.

(** The asynchronous operations a handler awaits. *)
Inductive Call :=
| ReadAsDataURL (file : string)
| UrlToDataUrl (url : string)
| GeneratePromptFromImage (image : string)
| ComposeStoryImage (image scene : string).

Definition Call_eqb (a b : Call) : bool :=
  match a, b with
  | ReadAsDataURL f, ReadAsDataURL g => String.eqb f g
  | UrlToDataUrl u, UrlToDataUrl v => String.eqb u v
  | GeneratePromptFromImage i, GeneratePromptFromImage j => String.eqb i j
  | ComposeStoryImage i p, ComposeStoryImage j q => String.eqb i j && String.eqb p q
  | _, _ => false
  end.

(** One statement of a handler: a setter call, the assignment to the file
    input's value, or the launch of an awaited operation. *)
Inductive Action :=
| SetProductImage (v : option string)
| SetPrompt (v : string)
| SetIsLoading (v : bool)
| SetError (v : option string)
| SetFinalImageURI (v : option string)
| SetProductUrl (v : string)
| SetIsLoadingUrl (v : bool)
| SetIsGeneratingPrompt (v : bool)
| ClearFileInput
| Await (c : Call).

(** The mounted component: its state, the value of the hidden file input and
    the operations in flight. *)
Record Component := mkComponent {
  state : WorkflowState;
  fileInput : string;
  pending : list Call
}.

Definition mounted : Component :=
  {| state := initialState; fileInput := ""; pending := [] |}.

Definition update (f : WorkflowState -> WorkflowState) (m : Component) : Component :=
  {| state := f (state m); fileInput := fileInput m; pending := pending m |}.

Definition perform (a : Action) (m : Component) : Component :=
  match a with
  | SetProductImage v =>
      update (fun s => mkState v (prompt s) (isLoading s) (error s)
                         (finalImageURI s) (productUrl s) (isLoadingUrl s)
                         (isGeneratingPrompt s)) m
  | SetPrompt v =>
      update (fun s => mkState (productImage s) v (isLoading s) (error s)
                         (finalImageURI s) (productUrl s) (isLoadingUrl s)
                         (isGeneratingPrompt s)) m
  | SetIsLoading v =>
      update (fun s => mkState (productImage s) (prompt s) v (error s)
                         (finalImageURI s) (productUrl s) (isLoadingUrl s)
                         (isGeneratingPrompt s)) m
  | SetError v =>
      update (fun s => mkState (productImage s) (prompt s) (isLoading s) v
                         (finalImageURI s) (productUrl s) (isLoadingUrl s)
                         (isGeneratingPrompt s)) m
  | SetFinalImageURI v =>
      update (fun s => mkState (productImage s) (prompt s) (isLoading s) (error s)
                         v (productUrl s) (isLoadingUrl s)
                         (isGeneratingPrompt s)) m
  | SetProductUrl v =>
      update (fun s => mkState (productImage s) (prompt s) (isLoading s) (error s)
                         (finalImageURI s) v (isLoadingUrl s)
                         (isGeneratingPrompt s)) m
  | SetIsLoadingUrl v =>
      update (fun s => mkState (productImage s) (prompt s) (isLoading s) (error s)
                         (finalImageURI s) (productUrl s) v
                         (isGeneratingPrompt s)) m
  | SetIsGeneratingPrompt v =>
      update (fun s => mkState (productImage s) (prompt s) (isLoading s) (error s)
                         (finalImageURI s) (productUrl s) (isLoadingUrl s) v) m
  | ClearFileInput =>
      {| state := state m; fileInput := ""; pending := pending m |}
  | Await c =>
      {| state := state m; fileInput := fileInput m; pending := pending m ++ [c] |}
  end.

(** The statements of one synchronous segment, committed in order. *)
Definition commit (acts : list Action) (m : Component) : Component :=
  fold_left (fun m a => perform a m) acts m.

Definition is_empty (s : string) : bool :=
  match s with EmptyString => true | String _ _ => false end.

(** JavaScript's [!v] for [v : string | null]. *)
Definition falsy (v : option string) : bool :=
  match v with None => true | Some s => is_empty s end.

Definition option_eqb (a b : option string) : bool :=
  match a, b with
  | None, None => true
  | Some x, Some y => String.eqb x y
  | _, _ => false
  end.

(** *** Handlers: the segment that runs before the first [await] *)

Definition handleReset : list Action :=
  [ SetProductImage None; SetFinalImageURI None; SetError None;
    SetIsLoading false; SetProductUrl ""; SetIsLoadingUrl false;
    SetPrompt defaultPrompt; ClearFileInput ].

Definition handleAnalyzeImage (s : WorkflowState) : list Action :=
  if falsy (productImage s) then []
  else match productImage s with
       | Some image =>
           [ SetIsGeneratingPrompt true; SetError None;
             Await (GeneratePromptFromImage image) ]
       | None => []
       end.

Definition handleImageUpload (file : option string) : list Action :=
  match file with
  | Some f => handleReset ++ [ Await (ReadAsDataURL f) ]
  | None => []
  end.

Definition handleUrlImport (s : WorkflowState) : list Action :=
  if is_empty (productUrl s) then []
  else handleReset ++
       [ SetIsLoadingUrl true; SetError None; Await (UrlToDataUrl (productUrl s)) ].

Definition handleGenerate (s : WorkflowState) : list Action :=
  if is_empty (prompt s) || falsy (productImage s) then []
  else match productImage s with
       | Some image =>
           [ SetIsLoading true; SetError None; SetFinalImageURI None;
             Await (ComposeStoryImage image (prompt s)) ]
       | None => []
       end.

(** *** Continuations: what runs when the awaited operation settles
    ([try] after the [await], [catch], then [finally]; for the file reader,
    [onloadend], whose [result] is [null] after a read error). *)
Definition resume (c : Call) (o : Outcome string) : list Action :=
  match c, o with
  | ReadAsDataURL _, Resolved result => [ SetProductImage (Some result) ]
  | ReadAsDataURL _, Rejected _ => [ SetProductImage None ]
  | UrlToDataUrl _, Resolved dataUrl =>
      [ SetProductImage (Some dataUrl); SetProductUrl ""; SetIsLoadingUrl false ]
  | UrlToDataUrl _, Rejected message =>
      [ SetError (Some (if is_empty message then importFallback else message));
        SetIsLoadingUrl false ]
  | GeneratePromptFromImage _, Resolved generatedPrompt =>
      [ SetPrompt generatedPrompt; SetIsGeneratingPrompt false ]
  | GeneratePromptFromImage _, Rejected _ =>
      [ SetError (Some analyzeFailure); SetPrompt defaultPrompt;
        SetIsGeneratingPrompt false ]
  | ComposeStoryImage _ _, Resolved finalImage =>
      [ SetFinalImageURI (Some finalImage); SetIsLoading false ]
  | ComposeStoryImage _ _, Rejected _ =>
      [ SetError (Some composeFailure); SetIsLoading false ]
  end.

(** *** The automatic analysis effect

    [useEffect(..., [productImage, finalImageURI, handleAnalyzeImage])]: the
    callback is memoised on [productImage], so the effect runs after a
    render in which [productImage] or [finalImageURI] differs from the
    previous render. *)
Definition deps_changed (prev cur : WorkflowState) : bool :=
  negb (option_eqb (productImage prev) (productImage cur))
  || negb (option_eqb (finalImageURI prev) (finalImageURI cur)).

Definition analyzeEffect (s : WorkflowState) : list Action :=
  if negb (falsy (productImage s)) && falsy (finalImageURI s)
  then handleAnalyzeImage s
  else [].

(** Render after a commit: [prev] is the state of the previous render.  The
    handler run by the effect sets [isGeneratingPrompt] and [error] only, so
    the render it causes finds both dependencies unchanged and stops there.
    On mount the effect sees no product image and does nothing. *)
Definition render (prev : WorkflowState) (m : Component) : Component :=
  if deps_changed prev (state m) then commit (analyzeEffect (state m)) m else m.

Definition dispatch (acts : list Action) (m : Component) : Component :=
  render (state m) (commit acts m).

(** *** Events *)

Inductive Event :=
| ChooseFile (file : string)
| TypeUrl (url : string)
| EditPrompt (text : string)
| ClickImport
| ClickSuggest
| ClickGenerate
| ClickReset
| Settle (c : Call) (o : Outcome string).

Fixpoint remove_first (c : Call) (l : list Call) : list Call :=
  match l with
  | [] => []
  | d :: l' => if Call_eqb c d then l' else d :: remove_first c l'
  end.

Definition step (e : Event) (m : Component) : Component :=
  match e with
  | ChooseFile file =>
      dispatch (handleImageUpload (Some file))
        {| state := state m; fileInput := file; pending := pending m |}
  | TypeUrl url => dispatch [ SetProductUrl url ] m
  | EditPrompt text => dispatch [ SetPrompt text ] m
  | ClickImport => dispatch (handleUrlImport (state m)) m
  | ClickSuggest => dispatch (handleAnalyzeImage (state m)) m
  | ClickGenerate => dispatch (handleGenerate (state m)) m
  | ClickReset => dispatch handleReset m
  | Settle c o =>
      if existsb (Call_eqb c) (pending m)
      then dispatch (resume c o)
             {| state := state m; fileInput := fileInput m;
                pending := remove_first c (pending m) |}
      else m
  end.

Definition run (es : list Event) (m : Component) : Component :=
  fold_left (fun m e => step e m) es m.

(** The [disabled] attributes (and the guards of [triggerFileUpload] and of
    the block holding the reset button): whether the interface offers the
    event in a state. *)
Definition offered (e : Event) (m : Component) : bool :=
  let s := state m in
  match e with
  | ChooseFile _ => negb (isLoadingUrl s)
  | TypeUrl _ => negb (isLoadingUrl s)
  | EditPrompt _ =>
      negb (falsy (productImage s) || isLoading s || isGeneratingPrompt s)
  | ClickImport => negb (is_empty (productUrl s) || isLoadingUrl s)
  | ClickSuggest =>
      negb (falsy (productImage s) || isGeneratingPrompt s || isLoading s)
  | ClickGenerate =>
      negb (falsy (productImage s) || is_empty (prompt s) || isLoading s
            || isLoadingUrl s || isGeneratingPrompt s)
  | ClickReset => negb (falsy (productImage s))
  | Settle c _ => existsb (Call_eqb c) (pending m)
  end.

(** Every event of the sequence is offered in the state it occurs in. *)
Fixpoint feasible (es : list Event) (m : Component) : bool :=
  match es with
  | [] => true
  | e :: es' => offered e m && feasible es' (step e m)
  end.

(** *** The preview panel: its four conditional blocks *)

Definition showsLoading (s : WorkflowState) : bool := isLoading s || isLoadingUrl s.
Definition showsError (s : WorkflowState) : bool :=
  negb (falsy (error s)) && negb (isLoading s) && negb (isLoadingUrl s).
Definition showsFinalImage (s : WorkflowState) : bool :=
  negb (falsy (finalImageURI s)) && negb (isLoading s) && negb (isLoadingUrl s).

(** *** The operations of the orchestrator, run to completion *)

Definition reset (m : Component) : Component := step ClickReset m.

(** [describePrompt()] with the outcome of the description call: the
    handler, then the settlement of the call it launched, if any. *)
Definition describePrompt (o : Outcome string) (m : Component) : Component :=
  match handleAnalyzeImage (state m), productImage (state m) with
  | _ :: _, Some image =>
      step (Settle (GeneratePromptFromImage image) o) (step ClickSuggest m)
  | _, _ => step ClickSuggest m
  end.

(** [acquireFromUrl] on the address held in the text field: the handler
    up to the launch of the normalization, and the whole operation with the
    outcome of the normalization. *)
Definition acquireFromUrl_launch (m : Component) : Component := step ClickImport m.

Definition acquireFromUrl (o : Outcome string) (m : Component) : Component :=
  match handleUrlImport (state m) with
  | [] => step ClickImport m
  | _ :: _ => step (Settle (UrlToDataUrl (productUrl (state m))) o) (step ClickImport m)
  end.

(** [compose()]: the handler itself. *)
Definition compose (m : Component) : Component := step ClickGenerate m.

(** *** A session used in the examples: a file is chosen and read, the
    automatic description succeeds, and a first composition succeeds. *)
Definition sampleImage : string := "data:image/png;base64,AAAA".
Definition sampleFinal : string := "data:image/png;base64,BBBB".

Definition firstStory : list Event :=
  [ ChooseFile "produto.png";
    Settle (ReadAsDataURL "produto.png") (Resolved sampleImage);
    Settle (GeneratePromptFromImage sampleImage) (Resolved "T1");
    ClickGenerate;
    Settle (ComposeStoryImage sampleImage "T1") (Resolved sampleFinal) ].

(** The product image has been read and described. *)
Definition analysed : Component :=
  run [ ChooseFile "produto.png";
        Settle (ReadAsDataURL "produto.png") (Resolved sampleImage);
        Settle (GeneratePromptFromImage sampleImage) (Resolved "T1") ]
      mounted.

(** The first story is on display. *)
Definition storyShown : Component := run firstStory mounted.

(** A later suggestion request whose description call fails. *)
Definition suggestionFails : list Event :=
  [ ClickSuggest;
    Settle (GeneratePromptFromImage sampleImage)
           (Rejected "Falha ao gerar a descrição a partir da imagem.") ].

(** An address has been typed into the text field. *)
Definition badUrl : string := "http://bad".
Definition urlTyped : Component := step (TypeUrl badUrl) mounted.

(** *** The loading caption

    While [isLoading] holds, an interval started with [i = 0] advances the
    index every 2.5 seconds and shows [loadingMessages[i]]. *)
Definition loadingMessages : list string :=
  [ "Convocando diretores de arte...";
    "Ajustando a iluminação do estúdio virtual...";
    "Compondo a cena perfeita...";
    "Adicionando sombras e reflexos realistas...";
    "Finalizando os detalhes da sua obra-prima..." ].

(** The interval callback: [i = (i + 1) % loadingMessages.length]. *)
Definition nextMessageIndex (i : nat) : nat :=
  (i + 1) mod List.length loadingMessages.

(** The index after a number of ticks of the interval. *)
Fixpoint messageIndexAfter (ticks : nat) : nat :=
  match ticks with
  | O => 0
  | S n => nextMessageIndex (messageIndexAfter n)
  end.

(** [loadingMessages[i]] after a number of ticks; [None] for [undefined]. *)
Definition currentLoadingMessage (ticks : nat) : option string :=
  nth_error loadingMessages (messageIndexAfter ticks).

(** *** Download *)

(** The anchor that [handleDownload] creates, clicks and removes. *)
Record Anchor := { href : string; download : string }.

Definition handleDownload (s : WorkflowState) : option Anchor :=
  if falsy (finalImageURI s) then None
  else match finalImageURI s with
       | Some uri => Some {| href := uri; download := "story-profissional.png" |}
       | None => None
       end.

(** The download button: rendered inside the block guarded by
    [productImage], with its own [disabled] attribute. *)
Definition downloadOffered (s : WorkflowState) : bool :=
  negb (falsy (productImage s))
  && negb (falsy (finalImageURI s) || isLoading s || isLoadingUrl s).

(** *** Kinds of operation in flight *)

Definition isCompose (c : Call) : bool :=
  match c with ComposeStoryImage _ _ => true | _ => false end.
Definition isImport (c : Call) : bool :=
  match c with UrlToDataUrl _ => true | _ => false end.
Definition isDescribe (c : Call) : bool :=
  match c with GeneratePromptFromImage _ => true | _ => false end.

(** Every raised loading flag has an operation of its kind in flight. *)
Definition flagsBacked (m : Component) : Prop :=
  (isLoading (state m) = true -> existsb isCompose (pending m) = true)
  /\ (isLoadingUrl (state m) = true -> existsb isImport (pending m) = true)
  /\ (isGeneratingPrompt (state m) = true -> existsb isDescribe (pending m) = true).

End App.

(** ** The earlier service module: background images

    The other version of the Gemini service module: [generateBackgroundImage]
    and a [generatePromptFromImage] that differs from the current one in its
    instruction text only. *)

Module BackgroundService.

Record ImagesRequest := {
  model : string;
  prompt : string;
  numberOfImages : nat;
  outputMimeType : string;
  aspectRatio : string
}.

(** What the code reads of the response: [generatedImages] ([None] when
    missing), each entry being its [image?.imageBytes] ([None] when
    [image] or [imageBytes] is missing). *)
Record ImagesResponse := {
  generatedImages : option (list (option string))
}.

Definition noImageError : string := "Nenhuma imagem foi gerada pela API.".
Definition backgroundFailure : string :=
  "Falha ao gerar a imagem de fundo a partir da API Gemini.".
Definition describeFormatError : string := "Formato de string base64 inválido.".
Definition describeFailure : string :=
  "Falha ao gerar a descrição a partir da imagem.".

Definition describeInstruction : string :=
  "Analise a imagem deste produto. Crie uma descrição detalhada e profissional para um fundo de imagem que complemente e destaque este produto para uma postagem de story em redes sociais. A descrição deve ser criativa, atraente e focar em uma estética moderna e limpa. Descreva a cena, a iluminação, as cores e o clima. A resposta deve ser apenas a descrição gerada, em português.".

Definition is_empty (s : string) : bool :=
  match s with EmptyString => true | String _ _ => false end.

Section Remote.

(** [ai.models.generateImages] and [ai.models.generateContent]. *)
Variable generateImages : ImagesRequest -> Outcome ImagesResponse.
Variable generateContent : Gateway.Request -> Outcome Gateway.Response.

Definition generateBackgroundImage_try (scene : string)
  : Outcome string * list ImagesRequest :=
  let request := {| model := "imagen-4.0-generate-001"; prompt := scene;
                    numberOfImages := 1; outputMimeType := "image/jpeg";
                    aspectRatio := "9:16" |} in
  match generateImages request with
  | Rejected e => (Rejected e, [request])
  | Resolved response =>
      match generatedImages response with
      | Some (Some imageBytes :: _) =>
          if is_empty imageBytes then (Rejected noImageError, [request])
          else (Resolved imageBytes, [request])
      | _ => (Rejected noImageError, [request])
      end
  end.

Definition generateBackgroundImage (scene : string)
  : Outcome string * list ImagesRequest :=
  match generateBackgroundImage_try scene with
  | (Rejected _, sent) => (Rejected backgroundFailure, sent)
  | (Resolved v, sent) => (Resolved v, sent)
  end.

Definition generatePromptFromImage_try (imageBase64 : string) : Gateway.Run :=
  match Gateway.regex_match imageBase64 with
  | None => (Rejected describeFormatError, [])
  | Some (mime, pureBase64) =>
      let request :=
        {| Gateway.model := "gemini-2.5-flash";
           Gateway.imagePart := {| Gateway.mimeType := mime;
                                   Gateway.data := pureBase64 |};
           Gateway.textPart := describeInstruction;
           Gateway.responseModalities := [] |} in
      match generateContent request with
      | Rejected e => (Rejected e, [request])
      | Resolved response => (Resolved (Gateway.text response), [request])
      end
  end.

Definition generatePromptFromImage (imageBase64 : string) : Gateway.Run :=
  Gateway.catch_rethrow describeFailure (generatePromptFromImage_try imageBase64).

End Remote.

End BackgroundService.

(** ** Data URLs *)

Module DataUrl.

Definition semicolon : ascii := ascii_of_nat 59.

Fixpoint has_semicolon (s : string) : bool :=
  match s with
  | EmptyString => false
  | String c s' => Ascii.eqb c semicolon || has_semicolon s'
  end.

(** The data URL that [composeStoryImage] builds from an inline part. *)
Definition of_inline (d : Gateway.InlineData) : string :=
  "data:" ++ Gateway.mimeType d ++ ";base64," ++ Gateway.data d.

End DataUrl.

(** * Properties *)

(** ** The orchestrator *)

Module AppFacts.
Import App.

Lemma option_eqb_refl (v : option string) : option_eqb v v = true.
Proof. destruct v as [x|]; simpl; [apply String.eqb_refl | reflexivity]. Qed.

Lemma option_eqb_eq (a b : option string) : option_eqb a b = true <-> a = b.
Proof.
  destruct a as [x|], b as [y|]; simpl; split; intro H;
    try discriminate; try reflexivity.
  - apply String.eqb_eq in H. now subst.
  - injection H as ->. apply String.eqb_refl.
Qed.

Lemma Call_eqb_refl (c : Call) : Call_eqb c c = true.
Proof. destruct c; simpl; rewrite ?String.eqb_refl; reflexivity. Qed.

(** The effect does not run when neither dependency differs. *)
Lemma render_same_deps (prev : WorkflowState) (m : Component) :
  productImage prev = productImage (state m) ->
  finalImageURI prev = finalImageURI (state m) ->
  render prev m = m.
Proof.
  intros Hp Hf. unfold render, deps_changed.
  rewrite Hp, Hf, !option_eqb_refl. reflexivity.
Qed.

(** The effect does nothing when there is no product image. *)
Lemma render_no_product (prev : WorkflowState) (m : Component) :
  falsy (productImage (state m)) = true -> render prev m = m.
Proof.
  intro H. unfold render, analyzeEffect. rewrite H. simpl.
  now destruct (deps_changed prev (state m)).
Qed.

Lemma dispatch_nil (m : Component) : dispatch [] m = m.
Proof. unfold dispatch. simpl. now apply render_same_deps. Qed.

Lemma remove_first_last (c : Call) (l : list Call) :
  existsb (Call_eqb c) l = false -> remove_first c (l ++ [c]) = l.
Proof.
  induction l as [|d l IH]; simpl.
  - now rewrite Call_eqb_refl.
  - destruct (Call_eqb c d); simpl; [discriminate|].
    intro H. now rewrite IH.
Qed.

Lemma existsb_last (c : Call) (l : list Call) :
  existsb (Call_eqb c) (l ++ [c]) = true.
Proof. rewrite existsb_app. simpl. rewrite Call_eqb_refl. apply orb_true_r. Qed.

(** *** reset *)

Lemma reset_state (m : Component) :
  state (reset m) =
  {| productImage := None; prompt := defaultPrompt; isLoading := false;
     error := None; finalImageURI := None; productUrl := "";
     isLoadingUrl := false;
     isGeneratingPrompt := isGeneratingPrompt (state m) |}.
Proof.
  unfold reset, step, dispatch. rewrite render_no_product; reflexivity.
Qed.

Lemma reset_component (m : Component) :
  reset m =
  {| state := {| productImage := None; prompt := defaultPrompt;
                 isLoading := false; error := None; finalImageURI := None;
                 productUrl := ""; isLoadingUrl := false;
                 isGeneratingPrompt := isGeneratingPrompt (state m) |};
     fileInput := "";
     pending := pending m |}.
Proof.
  unfold reset, step, dispatch. rewrite render_no_product; reflexivity.
Qed.

(** C8. [reset()] clears [productImage], [finalImage], [error], the
    [composing] and [importingFromUrl] flags and [sourceUrl], restores
    [prompt] to the fixed default, and leaves [describingImage] as it was. *)
Theorem reset_clears_all_but_describing (m : Component) :
  let s' := state (reset m) in
  productImage s' = None /\ finalImageURI s' = None /\ error s' = None
  /\ isLoading s' = false /\ isLoadingUrl s' = false /\ productUrl s' = ""
  /\ prompt s' = defaultPrompt
  /\ isGeneratingPrompt s' = isGeneratingPrompt (state m).
Proof. cbv zeta. rewrite reset_state. simpl. repeat split. Qed.

(** C9. [reset()] is idempotent: applying it twice gives the state (and the
    whole component) that applying it once gives. *)
Theorem reset_idempotent (m : Component) : reset (reset m) = reset m.
Proof. rewrite (reset_component (reset m)), (reset_component m). reflexivity. Qed.

(** *** compose *)

(** C6. When [prompt] is empty or [productImage] is absent, [compose()]
    changes nothing: the state is the one before the call and no operation
    is launched. *)
Theorem compose_noop (m : Component) :
  prompt (state m) = "" \/ productImage (state m) = None ->
  compose m = m.
Proof.
  intro H. unfold compose, step.
  assert (E : handleGenerate (state m) = []).
  { unfold handleGenerate. destruct H as [-> | ->]; simpl; [reflexivity|].
    now rewrite orb_true_r. }
  rewrite E. apply dispatch_nil.
Qed.

Lemma compose_noop_witness :
  (prompt (state mounted) = "" \/ productImage (state mounted) = None)
  /\ compose mounted = mounted.
Proof.
  split; [right; reflexivity | apply (compose_noop mounted); right; reflexivity].
Defined.

(** *** acquireFromUrl *)

(** C7. With the empty string as the address, [acquireFromUrl] changes
    nothing and launches no normalization; [reset()] followed by it is
    [reset()] alone. *)
Theorem acquireFromUrl_empty_noop (m : Component) (o : Outcome string) :
  (productUrl (state m) = "" ->
   acquireFromUrl_launch m = m /\ acquireFromUrl o m = m)
  /\ acquireFromUrl o (reset m) = reset m.
Proof.
  assert (G : forall m', productUrl (state m') = "" ->
                         acquireFromUrl_launch m' = m' /\ acquireFromUrl o m' = m').
  { intros m' H. unfold acquireFromUrl, acquireFromUrl_launch, step.
    assert (E : handleUrlImport (state m') = []).
    { unfold handleUrlImport. now rewrite H. }
    rewrite E. split; apply dispatch_nil. }
  split; [apply G|].
  apply G. now rewrite reset_state.
Qed.

Lemma acquireFromUrl_empty_noop_witness :
  productUrl (state mounted) = ""
  /\ acquireFromUrl_launch mounted = mounted
  /\ acquireFromUrl (Rejected "x") mounted = mounted.
Proof.
  split; [reflexivity|].
  apply (proj1 (acquireFromUrl_empty_noop mounted (Rejected "x"))). reflexivity.
Defined.

(** *** describePrompt *)

Lemma falsy_present (image : string) : image <> "" -> falsy (Some image) = false.
Proof. destruct image; [congruence | reflexivity]. Qed.

(** The handler on a state holding a product image: the flag is raised, the
    error cleared and the description call launched; nothing else moves. *)
Lemma suggest_launches (m : Component) (image : string) :
  productImage (state m) = Some image -> image <> "" ->
  step ClickSuggest m =
  {| state := {| productImage := Some image; prompt := prompt (state m);
                 isLoading := isLoading (state m); error := None;
                 finalImageURI := finalImageURI (state m);
                 productUrl := productUrl (state m);
                 isLoadingUrl := isLoadingUrl (state m);
                 isGeneratingPrompt := true |};
     fileInput := fileInput m;
     pending := pending m ++ [GeneratePromptFromImage image] |}.
Proof.
  intros Hp Hne. unfold step, dispatch, handleAnalyzeImage.
  rewrite Hp, (falsy_present _ Hne). simpl.
  rewrite render_same_deps; simpl; rewrite ?Hp; reflexivity.
Qed.

(** The state after the description call settles. *)
Lemma describe_settles (m : Component) (image : string) (o : Outcome string) :
  existsb (Call_eqb (GeneratePromptFromImage image)) (pending m) = true ->
  state (step (Settle (GeneratePromptFromImage image) o) m) =
  match o with
  | Resolved generatedPrompt =>
      {| productImage := productImage (state m); prompt := generatedPrompt;
         isLoading := isLoading (state m); error := error (state m);
         finalImageURI := finalImageURI (state m);
         productUrl := productUrl (state m);
         isLoadingUrl := isLoadingUrl (state m);
         isGeneratingPrompt := false |}
  | Rejected _ =>
      {| productImage := productImage (state m); prompt := defaultPrompt;
         isLoading := isLoading (state m); error := Some analyzeFailure;
         finalImageURI := finalImageURI (state m);
         productUrl := productUrl (state m);
         isLoadingUrl := isLoadingUrl (state m);
         isGeneratingPrompt := false |}
  end.
Proof.
  intro H. unfold step. rewrite H. unfold dispatch.
  destruct o; simpl; rewrite render_same_deps; reflexivity.
Qed.

Lemma describePrompt_unfold (m : Component) (image : string) (o : Outcome string) :
  productImage (state m) = Some image -> image <> "" ->
  describePrompt o m =
  step (Settle (GeneratePromptFromImage image) o) (step ClickSuggest m).
Proof.
  intros Hp Hne. unfold describePrompt, handleAnalyzeImage.
  now rewrite Hp, (falsy_present _ Hne).
Qed.

(** With the empty string stored as product image the handler returns at
    its guard: nothing changes and no call is made. *)
Lemma describePrompt_empty_image (m : Component) (o : Outcome string) :
  productImage (state m) = Some "" -> describePrompt o m = m.
Proof.
  intro Hp. unfold describePrompt, step, handleAnalyzeImage.
  rewrite Hp. simpl. apply dispatch_nil.
Qed.

(** C5. From a state holding a product image, when the description call
    made by [describePrompt()] fails, [prompt] is the fixed default, [error]
    is the fixed manual-description message and [describingImage] is false;
    [describingImage] is false after a successful call too. *)
Theorem describePrompt_failure_fallback
    (m : Component) (image message text : string) :
  productImage (state m) = Some image -> image <> "" ->
  (let s' := state (describePrompt (Rejected message) m) in
   prompt s' = defaultPrompt /\ error s' = Some analyzeFailure
   /\ isGeneratingPrompt s' = false)
  /\ isGeneratingPrompt (state (describePrompt (Resolved text) m)) = false.
Proof.
  intros Hp Hne. cbv zeta.
  rewrite !(describePrompt_unfold m image _ Hp Hne).
  rewrite !describe_settles
    by (rewrite (suggest_launches m image Hp Hne); apply existsb_last).
  simpl. repeat split.
Qed.

Lemma describePrompt_failure_fallback_witness :
  productImage (state analysed) = Some sampleImage
  /\ prompt (state (describePrompt (Rejected "falha") analysed)) = defaultPrompt
  /\ error (state (describePrompt (Rejected "falha") analysed)) = Some analyzeFailure
  /\ isGeneratingPrompt (state (describePrompt (Rejected "falha") analysed)) = false
  /\ isGeneratingPrompt (state (describePrompt (Resolved "T2") analysed)) = false.
Proof.
  split; [reflexivity|].
  pose proof (describePrompt_failure_fallback analysed sampleImage "falha" "T2"
                eq_refl ltac:(discriminate)) as [(H1 & H2 & H3) H4].
  repeat split; assumption.
Defined.

(** *** The automatic description *)

(** What a render can do: nothing, or run [handleAnalyzeImage] on a state
    that holds a product image and no final image. *)
Lemma render_cases (prev : WorkflowState) (m : Component) :
  render prev m = m
  \/ exists image,
       productImage (state m) = Some image /\ image <> ""
       /\ falsy (finalImageURI (state m)) = true
       /\ deps_changed prev (state m) = true
       /\ render prev m = step ClickSuggest m.
Proof.
  unfold render, analyzeEffect.
  destruct (deps_changed prev (state m)) eqn:Hd; [|now left].
  destruct (productImage (state m)) as [image|] eqn:Hp; simpl; [|now left].
  destruct image as [|c image]; simpl; [now left|].
  destruct (falsy (finalImageURI (state m))) eqn:Hf; simpl; [|now left].
  right. exists (String c image).
  split; [reflexivity|]. split; [discriminate|]. split; [reflexivity|].
  split; [reflexivity|].
  change (dispatch (handleAnalyzeImage (state m)) m) with (step ClickSuggest m).
  rewrite (suggest_launches m (String c image) Hp) by discriminate.
  unfold handleAnalyzeImage. rewrite Hp. simpl. rewrite Hp. reflexivity.
Qed.

(** A product image arriving while there is no final image launches the
    description exactly once. *)
Lemma file_read_launches_describe (m : Component) (file image : string) :
  existsb (Call_eqb (ReadAsDataURL file)) (pending m) = true ->
  productImage (state m) = None -> finalImageURI (state m) = None ->
  image <> "" ->
  pending (step (Settle (ReadAsDataURL file) (Resolved image)) m) =
  (remove_first (ReadAsDataURL file) (pending m)
     ++ [GeneratePromptFromImage image])%list.
Proof.
  intros Hin Hp Hf Hne. destruct image as [|c image]; [congruence|].
  unfold step. rewrite Hin. unfold dispatch, render.
  simpl. unfold deps_changed. simpl. rewrite Hp, Hf. simpl.
  unfold analyzeEffect, handleAnalyzeImage. simpl. reflexivity.
Qed.

(** X28. [compose()] from a state with a product image, a scene and no
    final image launches the composition only, with that image and that
    scene: no description is started. *)
Lemma compose_first_time (m : Component) (image : string) :
  productImage (state m) = Some image -> image <> "" ->
  prompt (state m) <> "" -> finalImageURI (state m) = None ->
  pending (compose m) =
  (pending m ++ [ComposeStoryImage image (prompt (state m))])%list.
Proof.
  intros Hp Hne Hs Hf. unfold compose, step, dispatch, handleGenerate.
  rewrite Hp, (falsy_present _ Hne).
  destruct (prompt (state m)) eqn:E; [congruence|]. simpl.
  rewrite render_same_deps; simpl; rewrite ?Hp, ?Hf; reflexivity.
Qed.

(** [compose()] while a final image is shown clears it, and the cleared
    final image makes the effect run: a description call is launched next
    to the composition although the product image is the same. *)
Lemma compose_again_launches_describe (m : Component) (image final : string) :
  productImage (state m) = Some image -> image <> "" ->
  prompt (state m) <> "" -> finalImageURI (state m) = Some final ->
  productImage (state (compose m)) = productImage (state m)
  /\ isGeneratingPrompt (state (compose m)) = true
  /\ pending (compose m) =
     (pending m ++ [ComposeStoryImage image (prompt (state m));
                    GeneratePromptFromImage image])%list.
Proof.
  intros Hp Hne Hs Hf. unfold compose, step, dispatch, handleGenerate.
  rewrite Hp, (falsy_present _ Hne).
  destruct (prompt (state m)) eqn:E; [congruence|]. simpl.
  unfold render, deps_changed. simpl. rewrite Hp, Hf, option_eqb_refl. simpl.
  unfold analyzeEffect, handleAnalyzeImage. simpl.
  destruct image as [|c image]; [congruence|]. simpl.
  rewrite <- app_assoc. simpl. repeat split.
Qed.

(** C1. The automatic description is also launched when [compose()]
    clears an earlier final image: in the session where a first story is
    shown, asking for a second composition launches [describePrompt()]
    although [productImage] does not change, and its result replaces the
    scene text the composition was asked for. *)
Theorem compose_again_reruns_describe :
  feasible (firstStory ++ [ClickGenerate])%list mounted = true
  /\ productImage (state storyShown) = Some sampleImage
  /\ finalImageURI (state storyShown) = Some sampleFinal
  /\ pending storyShown = []
  /\ productImage (state (compose storyShown)) = Some sampleImage
  /\ isGeneratingPrompt (state (compose storyShown)) = true
  /\ pending (compose storyShown) =
     [ComposeStoryImage sampleImage "T1"; GeneratePromptFromImage sampleImage]
  /\ prompt (state (step (Settle (GeneratePromptFromImage sampleImage) (Resolved "T2"))
                         (compose storyShown))) = "T2".
Proof. repeat split; reflexivity. Qed.

(** *** acquireFromUrl and the address field *)

Lemma render_productUrl (prev : WorkflowState) (m : Component) :
  productUrl (state (render prev m)) = productUrl (state m).
Proof.
  destruct (render_cases prev m) as [-> | (image & Hp & Hne & _ & _ & ->)];
    [reflexivity|].
  now rewrite (suggest_launches m image Hp Hne).
Qed.

(** Whatever the starting state and the outcome, the address field is empty
    after [acquireFromUrl]. *)
Lemma acquireFromUrl_clears_url (m : Component) (o : Outcome string) :
  productUrl (state (acquireFromUrl_launch m)) = ""
  /\ productUrl (state (acquireFromUrl o m)) = "".
Proof.
  unfold acquireFromUrl, acquireFromUrl_launch.
  assert (L : productUrl (state (step ClickImport m)) = ""
              /\ (productUrl (state m) <> "" ->
                  existsb (Call_eqb (UrlToDataUrl (productUrl (state m))))
                          (pending (step ClickImport m)) = true)).
  { unfold step, dispatch, handleUrlImport.
    destruct (productUrl (state m)) eqn:E; simpl.
    - rewrite render_productUrl. split; [assumption | congruence].
    - rewrite render_no_product by reflexivity. simpl. split; [reflexivity|].
      intros _. apply existsb_last. }
  destruct L as [L1 L2]. split; [exact L1|].
  unfold handleUrlImport.
  destruct (productUrl (state m)) eqn:E; simpl; [exact L1|].
  change (dispatch (handleUrlImport (state m)) m) with (step ClickImport m).
  rewrite L2 by discriminate.
  unfold dispatch. rewrite render_productUrl.
  destruct o; simpl; [reflexivity | exact L1].
Qed.

(** C2. The address field does not keep the submitted address: with
    [http://bad] typed in, the handler launches the normalization of that
    address and the field is already empty, and it is empty, not the
    submitted text, after the normalization fails. *)
Theorem acquireFromUrl_drops_submitted_url :
  productUrl (state urlTyped) = badUrl
  /\ offered ClickImport urlTyped = true
  /\ pending (acquireFromUrl_launch urlTyped) = [UrlToDataUrl badUrl]
  /\ productUrl (state (acquireFromUrl_launch urlTyped)) = ""
  /\ productUrl (state (acquireFromUrl (Rejected Normalizer.loadError) urlTyped)) = ""
  /\ error (state (acquireFromUrl (Rejected Normalizer.loadError) urlTyped))
     = Some Normalizer.loadError
  /\ isLoadingUrl (state (acquireFromUrl (Rejected Normalizer.loadError) urlTyped))
     = false.
Proof. repeat split; reflexivity. Qed.

(** *** Error and final image *)

(** [compose()] starts from a clean slate: no error, no final image. *)
Lemma compose_clears_outcome (m : Component) (image : string) :
  productImage (state m) = Some image -> image <> "" -> prompt (state m) <> "" ->
  error (state (compose m)) = None /\ finalImageURI (state (compose m)) = None.
Proof.
  intros Hp Hne Hs. unfold compose, step, dispatch, handleGenerate.
  rewrite Hp, (falsy_present _ Hne).
  destruct (prompt (state m)) eqn:E; [congruence|]. simpl.
  match goal with |- context [render ?p ?c] =>
    destruct (render_cases p c) as [-> | (i & Hi & Hn & _ & _ & ->)] end.
  - split; reflexivity.
  - rewrite (suggest_launches _ i Hi Hn). split; reflexivity.
Qed.

(** [describePrompt()] never touches the final image. *)
Lemma describePrompt_keeps_final (m : Component) (image : string) (o : Outcome string) :
  productImage (state m) = Some image -> image <> "" ->
  finalImageURI (state (describePrompt o m)) = finalImageURI (state m).
Proof.
  intros Hp Hne. rewrite (describePrompt_unfold m image o Hp Hne).
  rewrite describe_settles
    by (rewrite (suggest_launches m image Hp Hne); apply existsb_last).
  rewrite (suggest_launches m image Hp Hne). now destruct o.
Qed.

(** C3. [error] and [finalImage] can both be present: with the first story
    on display, a suggestion request whose description call fails sets the
    error and leaves the final image, and the preview panel renders the
    error text and the image together. *)
Theorem failed_suggestion_keeps_final_image :
  feasible (firstStory ++ suggestionFails)%list mounted = true
  /\ pending (run suggestionFails storyShown) = []
  /\ error (state (run suggestionFails storyShown)) = Some analyzeFailure
  /\ finalImageURI (state (run suggestionFails storyShown)) = Some sampleFinal
  /\ showsError (state (run suggestionFails storyShown)) = true
  /\ showsFinalImage (state (run suggestionFails storyShown)) = true.
Proof. repeat split; reflexivity. Qed.

(** The description launched by a second [compose()] runs next to the
    composition; when it fails and the composition succeeds, in either
    order, the error and the new final image are both present. *)
Example second_story_with_failed_description :
  let compose_first :=
    [ ClickGenerate;
      Settle (ComposeStoryImage sampleImage "T1") (Resolved sampleFinal);
      Settle (GeneratePromptFromImage sampleImage) (Rejected "falha") ] in
  let describe_first :=
    [ ClickGenerate;
      Settle (GeneratePromptFromImage sampleImage) (Rejected "falha");
      Settle (ComposeStoryImage sampleImage "T1") (Resolved sampleFinal) ] in
  run compose_first storyShown = run describe_first storyShown
  /\ error (state (run compose_first storyShown)) = Some analyzeFailure
  /\ finalImageURI (state (run compose_first storyShown)) = Some sampleFinal
  /\ prompt (state (run compose_first storyShown)) = defaultPrompt.
Proof. repeat split; reflexivity. Qed.


End AppFacts.

(** ** The normalizer *)

Module NormalizerFacts.
Import JsNumber Normalizer.
Local Open Scope Z_scope.

(** Integers up to [MAX_DIMENSION] pass through a Number unchanged. *)
Lemma small_sizes_exact :
  forallb (fun n => to_unsigned_long (of_Z (Z.of_nat n)) =? Z.of_nat n)
          (seq 0 1025) = true.
Proof. vm_compute. reflexivity. Qed.

Lemma to_unsigned_long_of_Z (z : Z) :
  0 <= z <= MAX_DIMENSION -> to_unsigned_long (of_Z z) = z.
Proof.
  intros [H0 H1]. unfold MAX_DIMENSION in H1.
  pose proof (proj1 (forallb_forall _ _) small_sizes_exact (Z.to_nat z)) as H.
  cbv beta in H. rewrite Z2Nat.id in H by assumption.
  apply Z.eqb_eq, H, in_seq. lia.
Qed.

(** X1. An image that fits in 1024 x 1024 keeps its size: with both natural
    dimensions between 0 and 1024 the canvas has exactly those dimensions. *)
Lemma canvasSize_keeps_small (w h : Z) :
  0 <= w <= MAX_DIMENSION -> 0 <= h <= MAX_DIMENSION ->
  canvasSize w h = (w, h).
Proof.
  intros Hw Hh. unfold canvasSize.
  rewrite !Z.gtb_ltb.
  rewrite (proj2 (Z.ltb_ge MAX_DIMENSION w)) by lia.
  rewrite (proj2 (Z.ltb_ge MAX_DIMENSION h)) by lia.
  cbn [orb]. now rewrite !to_unsigned_long_of_Z.
Qed.

(** Square images with sides from 1025 to 4096: the canvas side is 1024 or
    1023, never more. *)
Lemma square_sizes_off_by_one :
  forallb (fun n =>
             let side := Z.of_nat n in
             match canvasSize side side with
             | (cw, ch) => (cw =? ch) && ((cw =? 1024) || (cw =? 1023))
             end)
          (seq 1025 3072) = true.
Proof. vm_compute. reflexivity. Qed.

(** C4. The larger canvas side is not always 1024: the product of 1568 and
    the double nearest to 1024/1568 is 1024 - 2^-43, which the canvas
    truncates, so a 1568 x 1176 image comes out 1023 x 767, where exact
    scaling gives 1024 x 768. *)
Theorem canvasSize_1568_is_1023 :
  mul (of_Z 1568) (div (of_Z MAX_DIMENSION) (of_Z 1568))
    = S754_finite false 9007199254740991 (-43)
  /\ canvasSize 1568 1176 = (1023, 767)
  /\ idealSize 1568 1176 = (1024, 768).
Proof. repeat split; vm_compute; reflexivity. Qed.

End NormalizerFacts.

(** ** The gateway *)

Module GatewayFacts.
Import Gateway.

Lemma append_assoc (a b c : string) : (a ++ b) ++ c = a ++ (b ++ c).
Proof. induction a as [|x a IH]; simpl; [reflexivity | now rewrite IH]. Qed.

Lemma strip_prefix_sound (p s r : string) :
  strip_prefix p s = Some r -> s = p ++ r.
Proof.
  revert s. induction p as [|a p IH]; intros s H; simpl in *.
  - now injection H as ->.
  - destruct s as [|b s]; [discriminate|].
    destruct (Ascii.eqb a b) eqn:E; [|discriminate].
    apply Ascii.eqb_eq in E. subst b. f_equal. now apply IH.
Qed.

Lemma strip_prefix_append (p r : string) : strip_prefix p (p ++ r) = Some r.
Proof.
  induction p as [|a p IH]; simpl; [reflexivity|].
  now rewrite Ascii.eqb_refl.
Qed.

(** What [split_greedy] returns is a split of its input around the literal,
    with something on both sides. *)
Lemma split_greedy_sound (s taken a b : string) :
  split_greedy taken s = Some (a, b) ->
  taken ++ s = a ++ ";base64," ++ b /\ a <> "" /\ b <> "".
Proof.
  revert taken. induction s as [|c s IH]; intros taken H; [discriminate|].
  cbn [split_greedy] in H.
  destruct (split_greedy (taken ++ String c "") s) as [[a' b']|] eqn:E.
  - injection H as -> ->. apply IH in E. now rewrite append_assoc in E.
  - destruct taken as [|t taken]; [discriminate|].
    destruct (strip_prefix ";base64," (String c s)) as [[|d payload]|] eqn:P;
      try discriminate.
    injection H as <- <-. apply strip_prefix_sound in P. rewrite P.
    repeat split; discriminate.
Qed.

(** It finds a split whenever there is one. *)
Lemma split_greedy_complete (a b taken : string) :
  taken ++ a <> "" -> b <> "" ->
  split_greedy taken (a ++ ";base64," ++ b) <> None.
Proof.
  revert taken. induction a as [|c a IH]; intros taken Ha Hb.
  - assert (T : taken <> "") by (intro; subst; now apply Ha).
    change ("" ++ ";base64," ++ b) with (String ";" ("base64," ++ b)).
    cbn [split_greedy].
    destruct (split_greedy (taken ++ String ";" "") ("base64," ++ b));
      [discriminate|].
    destruct taken as [|t taken]; [congruence|].
    change (String ";" ("base64," ++ b)) with (";base64," ++ b).
    rewrite strip_prefix_append.
    destruct b; [congruence | discriminate].
  - change (String c a ++ ";base64," ++ b) with (String c (a ++ ";base64," ++ b)).
    cbn [split_greedy].
    destruct (split_greedy (taken ++ String c "") (a ++ ";base64," ++ b)) eqn:E;
      [discriminate|].
    exfalso. revert E. apply IH; [|assumption].
    rewrite append_assoc. destruct taken; discriminate.
Qed.

(** X4. Whatever the matcher accepts has the shape
    [data:image/<subtype>;base64,<payload>] with a non-empty subtype and
    payload and no line terminator, and the captured groups are the media
    type [image/<subtype>] and the payload. *)
Lemma regex_match_sound (s mime payload : string) :
  regex_match s = Some (mime, payload) ->
  exists subtype,
    mime = "image/" ++ subtype /\ subtype <> "" /\ payload <> ""
    /\ s = "data:" ++ mime ++ ";base64," ++ payload
    /\ has_line_terminator (subtype ++ ";base64," ++ payload) = false.
Proof.
  unfold regex_match.
  destruct (strip_prefix "data:image/" s) as [rest|] eqn:P; [|discriminate].
  destruct (has_line_terminator rest) eqn:L; [discriminate|].
  destruct (split_greedy "" rest) as [[a b]|] eqn:E; [|discriminate].
  intro H. injection H as <- <-.
  apply split_greedy_sound in E. destruct E as (E & Ha & Hb). simpl in E.
  apply strip_prefix_sound in P. subst rest s.
  exists a. repeat split; assumption.
Qed.

(** X5. Every string of that shape, with a non-empty subtype and payload
    and no line terminator, is accepted by the matcher. *)
Lemma regex_match_complete (subtype payload : string) :
  subtype <> "" -> payload <> "" ->
  has_line_terminator (subtype ++ ";base64," ++ payload) = false ->
  regex_match ("data:image/" ++ subtype ++ ";base64," ++ payload) <> None.
Proof.
  intros Ha Hb L. unfold regex_match.
  rewrite strip_prefix_append, L.
  pose proof (split_greedy_complete subtype payload "" Ha Hb) as H.
  destruct (split_greedy "" (subtype ++ ";base64," ++ payload)) as [[a b]|];
    [discriminate | congruence].
Qed.

Section Remote.

Variable generateContent : Request -> Outcome Response.

(** Whatever goes wrong inside either operation, the caller sees the fixed
    message of that operation. *)
Lemma composeStoryImage_rejects_wrapped (image scene message : string)
    (sent : list Request) :
  composeStoryImage generateContent image scene = (Rejected message, sent) ->
  message = composeFailure.
Proof.
  unfold composeStoryImage, catch_rethrow.
  destruct (composeStoryImage_try generateContent image scene) as [[v|e] l];
    intro H; [discriminate | now injection H as <- _].
Qed.

Lemma generatePromptFromImage_rejects_wrapped (image message : string)
    (sent : list Request) :
  generatePromptFromImage generateContent image = (Rejected message, sent) ->
  message = describeFailure.
Proof.
  unfold generatePromptFromImage, catch_rethrow.
  destruct (generatePromptFromImage_try generateContent image) as [[v|e] l];
    intro H; [discriminate | now injection H as <- _].
Qed.

(** C10. On an input that the data-URL pattern does not match, both
    operations are rejected with their fixed failure message, not with the
    format error raised inside, and no request is sent to the remote
    model. *)
Theorem malformed_image_rejected_without_request (image scene : string) :
  regex_match image = None ->
  composeStoryImage generateContent image scene = (Rejected composeFailure, [])
  /\ generatePromptFromImage generateContent image = (Rejected describeFailure, [])
  /\ composeFailure <> composeFormatError
  /\ describeFailure <> describeFormatError.
Proof.
  intro H.
  unfold composeStoryImage, composeStoryImage_try,
    generatePromptFromImage, generatePromptFromImage_try.
  rewrite H. simpl. repeat split; discriminate.
Qed.

End Remote.

Lemma malformed_image_rejected_without_request_witness :
  regex_match "produto.png" = None
  /\ composeStoryImage (fun _ => Rejected "offline") "produto.png" "T1"
     = (Rejected composeFailure, [])
  /\ generatePromptFromImage (fun _ => Rejected "offline") "produto.png"
     = (Rejected describeFailure, []).
Proof.
  split; [reflexivity|].
  pose proof (malformed_image_rejected_without_request
                (fun _ => Rejected "offline") "produto.png" "T1" eq_refl)
    as (H1 & H2 & _).
  split; assumption.
Defined.

End GatewayFacts.

(** * Further properties *)

(** ** The normalizer *)

Module NormalizerExtra.
Import JsNumber Normalizer.
Local Open Scope Z_scope.

Lemma rejection_messages_nonempty :
  loadError <> ""%string /\ contextError <> ""%string /\ encodeError <> ""%string.
Proof. repeat split; discriminate. Qed.

(** X2. A square image with a side from 1025 to 4096 is scaled to a canvas
    of 1024 x 1024 or of 1023 x 1023: the canvas never exceeds
    [MAX_DIMENSION] and is at most one pixel short of it. *)
Theorem scaled_square_within_one (side : Z) :
  1025 <= side <= 4096 ->
  canvasSize side side = (1024, 1024) \/ canvasSize side side = (1023, 1023).
Proof.
  intros [H0 H1].
  pose proof (proj1 (forallb_forall _ _) NormalizerFacts.square_sizes_off_by_one
                (Z.to_nat side)) as H.
  cbv beta zeta in H. rewrite Z2Nat.id in H by lia.
  assert (I : In (Z.to_nat side) (seq 1025 3072)) by (apply in_seq; lia).
  specialize (H I). destruct (canvasSize side side) as [cw ch].
  apply andb_true_iff in H. destruct H as [E H].
  apply Z.eqb_eq in E. subst ch.
  apply orb_true_iff in H. destruct H as [H|H]; apply Z.eqb_eq in H; subst cw;
    [left | right]; reflexivity.
Qed.

Lemma scaled_square_within_one_witness :
  1025 <= 2000 <= 4096
  /\ (canvasSize 2000 2000 = (1024, 1024) \/ canvasSize 2000 2000 = (1023, 1023)).
Proof.
  split; [lia|]. apply (scaled_square_within_one 2000). lia.
Defined.

Section Browser.

Variable load : string -> Loaded.
Variable getContext : Z * Z -> bool.
Variable toDataURL : string -> Z * Z -> option string.


End Browser.


Lemma canvasSize_keeps_small_witness :
  0 <= 800 <= MAX_DIMENSION /\ 0 <= 600 <= MAX_DIMENSION
  /\ canvasSize 800 600 = (800, 600).
Proof.
  assert (A : 0 <= 800 <= MAX_DIMENSION) by (unfold MAX_DIMENSION; lia).
  assert (B : 0 <= 600 <= MAX_DIMENSION) by (unfold MAX_DIMENSION; lia).
  split; [exact A|]. split; [exact B|].
  exact (NormalizerFacts.canvasSize_keeps_small 800 600 A B).
Defined.

End NormalizerExtra.

(** ** The gateway *)

Module GatewayExtra.
Import Gateway DataUrl GatewayFacts.

Lemma regex_match_sound_witness :
  regex_match "data:image/png;base64,AAAA" = Some ("image/png", "AAAA")
  /\ exists subtype,
       "image/png" = "image/" ++ subtype /\ subtype <> "" /\ "AAAA" <> ""
       /\ "data:image/png;base64,AAAA" = "data:" ++ "image/png" ++ ";base64," ++ "AAAA"
       /\ has_line_terminator (subtype ++ ";base64," ++ "AAAA") = false.
Proof.
  split; [reflexivity|].
  exact (regex_match_sound "data:image/png;base64,AAAA" "image/png" "AAAA" eq_refl).
Defined.

Lemma regex_match_complete_witness :
  "jpeg" <> "" /\ "QUJD" <> ""
  /\ regex_match ("data:image/" ++ "jpeg" ++ ";base64," ++ "QUJD") <> None.
Proof.
  assert (A : "jpeg" <> "") by discriminate.
  assert (B : "QUJD" <> "") by discriminate.
  split; [exact A|]. split; [exact B|].
  exact (regex_match_complete "jpeg" "QUJD" A B eq_refl).
Defined.

(** The split that [split_greedy] returns is the last one: what follows the
    literal holds no further literal with something after it. *)
Lemma split_greedy_maximal (s taken a b : string) :
  split_greedy taken s = Some (a, b) ->
  forall x y, y <> "" -> b <> x ++ ";base64," ++ y.
Proof.
  revert taken. induction s as [|c s IH]; intros taken H x y Hy; [discriminate|].
  cbn [split_greedy] in H.
  destruct (split_greedy (taken ++ String c "") s) as [[a' b']|] eqn:E.
  - injection H as -> ->. now apply (IH _ E).
  - destruct taken as [|t taken]; [discriminate|].
    destruct (strip_prefix ";base64," (String c s)) as [[|d payload]|] eqn:P;
      try discriminate.
    injection H as <- <-. apply strip_prefix_sound in P.
    intro Hb. rewrite Hb in P.
    change (";base64," ++ x ++ ";base64," ++ y)
      with (String ";" ("base64," ++ (x ++ ";base64," ++ y))) in P.
    injection P as -> ->.
    assert (C : split_greedy (String t taken ++ ";") (("base64," ++ x) ++ ";base64," ++ y)
                <> None).
    { apply split_greedy_complete; [discriminate | assumption]. }
    rewrite append_assoc in C. contradiction.
Qed.

(** X6. The captured payload is the text after the last marker: it never
    holds a further [;base64,] followed by at least one character (the
    media type absorbs everything up to the last marker). *)
Theorem payload_follows_last_marker (s mime payload : string) :
  regex_match s = Some (mime, payload) ->
  forall x y, y <> "" -> payload <> x ++ ";base64," ++ y.
Proof.
  unfold regex_match.
  destruct (strip_prefix "data:image/" s) as [rest|]; [|discriminate].
  destruct (has_line_terminator rest); [discriminate|].
  destruct (split_greedy "" rest) as [[a b]|] eqn:E; [|discriminate].
  intro H. injection H as <- <-. exact (split_greedy_maximal _ _ _ _ E).
Qed.

Lemma payload_follows_last_marker_witness :
  regex_match "data:image/png;base64,AA;base64,BB"
  = Some ("image/png;base64,AA", "BB")
  /\ "BB" <> "" ++ ";base64," ++ "B".
Proof.
  split; [reflexivity|].
  apply (payload_follows_last_marker "data:image/png;base64,AA;base64,BB"
           "image/png;base64,AA" "BB" eq_refl "" "B").
  discriminate.
Defined.

Lemma split_greedy_without_semicolon (s taken : string) :
  has_semicolon s = false -> split_greedy taken s = None.
Proof.
  revert taken. induction s as [|c s IH]; intros taken H; [reflexivity|].
  simpl in H. apply orb_false_iff in H. destruct H as [Hc Hs].
  cbn [split_greedy]. rewrite (IH _ Hs).
  destruct taken as [|t taken]; [reflexivity|].
  cbn [strip_prefix].
  destruct (Ascii.eqb ";" c) eqn:E; [|reflexivity].
  apply Ascii.eqb_eq in E. subst c. discriminate.
Qed.

Lemma split_greedy_last (a data taken : string) :
  taken ++ a <> "" -> data <> "" -> has_semicolon data = false ->
  split_greedy taken (a ++ ";base64," ++ data) = Some (taken ++ a, data).
Proof.
  revert taken. induction a as [|c a IH]; intros taken Ha Hd Hs.
  - change ("" ++ ";base64," ++ data) with (String ";" ("base64," ++ data)).
    cbn [split_greedy].
    rewrite split_greedy_without_semicolon by exact Hs.
    assert (T : taken ++ "" = taken).
    { clear. induction taken as [|t taken IH]; simpl; [reflexivity | now rewrite IH]. }
    rewrite T in *.
    destruct taken as [|t taken]; [congruence|].
    change (String ";" ("base64," ++ data)) with (";base64," ++ data).
    rewrite strip_prefix_append.
    destruct data; [congruence | reflexivity].
  - change (String c a ++ ";base64," ++ data)
      with (String c (a ++ ";base64," ++ data)).
    cbn [split_greedy].
    rewrite IH; try assumption.
    + rewrite append_assoc. reflexivity.
    + rewrite append_assoc. destruct taken; discriminate.
Qed.

(** X7. Round trip: the data URL built from a media type [image/<subtype>]
    and a payload without [;] (as base64 text is), both non-empty and free
    of line terminators, is matched and gives back that media type and
    that payload. *)
Theorem data_url_round_trip (subtype payload : string) :
  subtype <> "" -> payload <> "" ->
  has_line_terminator (subtype ++ ";base64," ++ payload) = false ->
  has_semicolon payload = false ->
  regex_match (of_inline {| mimeType := "image/" ++ subtype; data := payload |})
  = Some ("image/" ++ subtype, payload).
Proof.
  intros Ha Hb L S. unfold of_inline, regex_match. cbn [mimeType data].
  change ("data:" ++ ("image/" ++ subtype) ++ ";base64," ++ payload)
    with ("data:image/" ++ (subtype ++ ";base64," ++ payload)).
  rewrite strip_prefix_append, L.
  now rewrite (split_greedy_last subtype payload "" Ha Hb S).
Qed.

Lemma data_url_round_trip_witness :
  "png" <> "" /\ "iVBORw0KGgo=" <> ""
  /\ regex_match (of_inline {| mimeType := "image/" ++ "png"; data := "iVBORw0KGgo=" |})
     = Some ("image/" ++ "png", "iVBORw0KGgo=").
Proof.
  assert (A : "png" <> "") by discriminate.
  assert (B : "iVBORw0KGgo=" <> "") by discriminate.
  split; [exact A|]. split; [exact B|].
  exact (data_url_round_trip "png" "iVBORw0KGgo=" A B eq_refl eq_refl).
Defined.

Lemma first_inline_resolved (ps : list (option InlineData)) (v : string) :
  first_inline ps = Resolved v ->
  exists d, In (Some d) ps /\ v = of_inline d.
Proof.
  induction ps as [|[d|] ps IH]; simpl; intro H.
  - discriminate.
  - injection H as <-. exists d. split; [now left | reflexivity].
  - destruct (IH H) as (d & Hin & ->). exists d. split; [now right | reflexivity].
Qed.

Section Remote.

Variable generateContent : Request -> Outcome Response.

(** X8. When [composeStoryImage] resolves, the input was a well-formed
    data URL, exactly one request was sent, the remote model answered it,
    and the value is the data URL of an inline part of that answer. *)
Theorem composeStoryImage_resolved (image scene v : string) (sent : list Request) :
  composeStoryImage generateContent image scene = (Resolved v, sent) ->
  regex_match image <> None
  /\ exists request response ps d,
       sent = [request]
       /\ generateContent request = Resolved response
       /\ parts response = Some ps
       /\ In (Some d) ps
       /\ v = of_inline d.
Proof.
  unfold composeStoryImage, composeStoryImage_try, catch_rethrow.
  destruct (regex_match image) as [[mime payload]|]; [|discriminate].
  match goal with |- context [generateContent ?r] =>
    set (request := r); destruct (generateContent request) as [response|e] eqn:G
  end; [|discriminate].
  destruct (parts response) as [ps|] eqn:P; [|discriminate].
  destruct (first_inline ps) as [w|e] eqn:F; [|discriminate].
  intro H. injection H as <- <-.
  destruct (first_inline_resolved ps w F) as (d & Hin & ->).
  split; [discriminate|].
  exists request, response, ps, d. repeat split; assumption.
Qed.

(** X9. Whatever fails inside them (the format check, the remote call, a
    response without candidates or without an inline image), both
    operations are rejected with their own fixed message. *)
Theorem gateway_rejections_are_fixed (image scene message : string)
    (sent : list Request) :
  (composeStoryImage generateContent image scene = (Rejected message, sent) ->
   message = composeFailure)
  /\ (generatePromptFromImage generateContent image = (Rejected message, sent) ->
      message = describeFailure).
Proof.
  split.
  - unfold composeStoryImage, catch_rethrow.
    destruct (composeStoryImage_try generateContent image scene) as [[v|e] l];
      intro H; [discriminate | now injection H as <- _].
  - unfold generatePromptFromImage, catch_rethrow.
    destruct (generatePromptFromImage_try generateContent image) as [[v|e] l];
      intro H; [discriminate | now injection H as <- _].
Qed.

(** X10. On a well-formed data URL each operation sends exactly one
    request, whatever the remote model answers: it carries the captured
    media type and payload, and for the composition the scene after the
    fixed preamble. *)
Theorem one_request_per_call (image scene mime payload : string) :
  regex_match image = Some (mime, payload) ->
  (exists request,
     snd (composeStoryImage generateContent image scene) = [request]
     /\ imagePart request = {| mimeType := mime; data := payload |}
     /\ textPart request = composePreamble ++ scene
     /\ model request = "gemini-2.5-flash-image")
  /\ (exists request,
        snd (generatePromptFromImage generateContent image) = [request]
        /\ imagePart request = {| mimeType := mime; data := payload |}
        /\ textPart request = describeInstruction
        /\ model request = "gemini-2.5-flash").
Proof.
  intro H. split.
  - unfold composeStoryImage, composeStoryImage_try, catch_rethrow. rewrite H.
    match goal with |- context [generateContent ?r] =>
      exists r; destruct (generateContent r) as [response|e]
    end.
    + destruct (parts response) as [ps|]; [destruct (first_inline ps)|];
        repeat split.
    + repeat split.
  - unfold generatePromptFromImage, generatePromptFromImage_try, catch_rethrow.
    rewrite H.
    match goal with |- context [generateContent ?r] =>
      exists r; destruct (generateContent r) as [response|e]
    end; repeat split.
Qed.

End Remote.

Lemma composeStoryImage_resolved_witness :
  composeStoryImage
    (fun _ : Request =>
       Resolved {| parts := Some [None; Some {| mimeType := "image/png";
                                                 data := "BBBB" |}];
                   text := "" |})
    "data:image/png;base64,AAAA" "T1"
  = (Resolved "data:image/png;base64,BBBB",
     [ {| model := "gemini-2.5-flash-image";
          imagePart := {| mimeType := "image/png"; data := "AAAA" |};
          textPart := composePreamble ++ "T1";
          responseModalities := ["IMAGE"] |} ])
  /\ regex_match "data:image/png;base64,AAAA" <> None.
Proof.
  split; [reflexivity|].
  exact (proj1 (composeStoryImage_resolved
                  (fun _ : Request =>
                     Resolved {| parts := Some [None; Some {| mimeType := "image/png";
                                                               data := "BBBB" |}];
                                 text := "" |})
                  "data:image/png;base64,AAAA" "T1" _ _ eq_refl)).
Defined.

Lemma gateway_rejections_are_fixed_witness :
  composeStoryImage (fun _ => Rejected "503") "data:image/png;base64,AAAA" "T1"
  = (Rejected composeFailure,
     [ {| model := "gemini-2.5-flash-image";
          imagePart := {| mimeType := "image/png"; data := "AAAA" |};
          textPart := composePreamble ++ "T1";
          responseModalities := ["IMAGE"] |} ])
  /\ composeFailure = composeFailure.
Proof.
  split; [reflexivity|].
  exact (proj1 (gateway_rejections_are_fixed (fun _ => Rejected "503")
                  "data:image/png;base64,AAAA" "T1" composeFailure _) eq_refl).
Defined.

Lemma one_request_per_call_witness :
  regex_match "data:image/png;base64,AAAA" = Some ("image/png", "AAAA")
  /\ exists request,
       snd (generatePromptFromImage (fun _ => Rejected "503")
              "data:image/png;base64,AAAA") = [request]
       /\ imagePart request = {| mimeType := "image/png"; data := "AAAA" |}
       /\ textPart request = describeInstruction
       /\ model request = "gemini-2.5-flash".
Proof.
  split; [reflexivity|].
  exact (proj2 (one_request_per_call (fun _ => Rejected "503")
                  "data:image/png;base64,AAAA" "T1" "image/png" "AAAA" eq_refl)).
Defined.

End GatewayExtra.

(** ** The earlier service module *)

Module BackgroundExtra.
Import BackgroundService.

Section Remote.

Variable generateImages : ImagesRequest -> Outcome ImagesResponse.
Variable generateContent : Gateway.Request -> Outcome Gateway.Response.

(** X11. [generateBackgroundImage] resolves exactly when the remote model
    answers and the first generated image has non-empty bytes; the value is
    those bytes.  Later images are never looked at. *)
Theorem generateBackgroundImage_resolves_iff (scene bytes : string) :
  fst (generateBackgroundImage generateImages scene) = Resolved bytes <->
  exists response rest,
    generateImages {| model := "imagen-4.0-generate-001"; prompt := scene;
                      numberOfImages := 1; outputMimeType := "image/jpeg";
                      aspectRatio := "9:16" |} = Resolved response
    /\ generatedImages response = Some (Some bytes :: rest)
    /\ bytes <> "".
Proof.
  unfold generateBackgroundImage, generateBackgroundImage_try.
  match goal with |- context [generateImages ?r] =>
    destruct (generateImages r) as [response|e] eqn:G
  end.
  - destruct (generatedImages response) as [[|[b|] rest]|] eqn:I; simpl.
    + split; [discriminate | intros (r & l & H & H' & _); injection H as <-; congruence].
    + destruct b as [|c b]; simpl.
      * split; [discriminate|].
        intros (r & l & H & H' & Hne). injection H as <-.
        rewrite I in H'. injection H' as <- _. congruence.
      * split.
        -- intro H. injection H as <-. exists response, rest.
           repeat split; [assumption | discriminate].
        -- intros (r & l & H & H' & _). injection H as <-.
           rewrite I in H'. now injection H' as <- _.
    + split; [discriminate | intros (r & l & H & H' & _); injection H as <-; congruence].
    + split; [discriminate | intros (r & l & H & H' & _); injection H as <-; congruence].
  - simpl. split; [discriminate | intros (r & l & H & _); discriminate].
Qed.

(** X12. [generateBackgroundImage] sends exactly one request on every
    input, the empty scene included, asking for one 9:16 JPEG image, and
    every rejection carries its fixed message. *)
Theorem generateBackgroundImage_single_request (scene : string) :
  (exists request,
     snd (generateBackgroundImage generateImages scene) = [request]
     /\ prompt request = scene /\ numberOfImages request = 1
     /\ outputMimeType request = "image/jpeg" /\ aspectRatio request = "9:16")
  /\ forall message,
       fst (generateBackgroundImage generateImages scene) = Rejected message ->
       message = backgroundFailure.
Proof.
  unfold generateBackgroundImage, generateBackgroundImage_try.
  match goal with |- context [generateImages ?r] =>
    destruct (generateImages r) as [response|e]
  end.
  - destruct (generatedImages response) as [[|[[|c b]|] rest]|]; simpl;
      (split; [eexists; repeat split | intros message H; congruence]).
  - simpl. split; [eexists; repeat split | intros message H; congruence].
Qed.

(** X13. The earlier [generatePromptFromImage]: without a match it is
    rejected before any request; with one it sends a single request with
    the captured parts and its own instruction; every rejection carries the
    fixed message. *)
Theorem earlier_generatePromptFromImage_requests (image : string) :
  match Gateway.regex_match image with
  | None =>
      generatePromptFromImage generateContent image = (Rejected describeFailure, [])
  | Some (mime, payload) =>
      exists request,
        snd (generatePromptFromImage generateContent image) = [request]
        /\ Gateway.imagePart request
           = {| Gateway.mimeType := mime; Gateway.data := payload |}
        /\ Gateway.textPart request = describeInstruction
  end
  /\ forall message,
       fst (generatePromptFromImage generateContent image) = Rejected message ->
       message = describeFailure.
Proof.
  unfold generatePromptFromImage, generatePromptFromImage_try, Gateway.catch_rethrow.
  destruct (Gateway.regex_match image) as [[mime payload]|].
  - match goal with |- context [generateContent ?r] =>
      destruct (generateContent r) as [response|e]
    end; simpl; (split; [eexists; repeat split | intros message H; congruence]).
  - simpl. split; [reflexivity | intros message H; congruence].
Qed.

End Remote.

Lemma generateBackgroundImage_resolves_iff_witness :
  fst (generateBackgroundImage
         (fun _ => Resolved {| generatedImages := Some [Some "QUJD"; None] |})
         "Um fundo azul")
  = Resolved "QUJD"
  /\ "QUJD" <> "".
Proof.
  split; [reflexivity|].
  destruct (proj1 (generateBackgroundImage_resolves_iff
                     (fun _ => Resolved {| generatedImages := Some [Some "QUJD"; None] |})
                     "Um fundo azul" "QUJD") eq_refl)
    as (response & rest & _ & _ & H).
  exact H.
Defined.

Lemma generateBackgroundImage_single_request_witness :
  fst (generateBackgroundImage
         (fun _ => Resolved {| generatedImages := Some [None; Some "QUJD"] |}) "")
  = Rejected backgroundFailure
  /\ backgroundFailure = backgroundFailure.
Proof.
  split; [reflexivity|].
  exact (proj2 (generateBackgroundImage_single_request
                  (fun _ => Resolved {| generatedImages := Some [None; Some "QUJD"] |})
                  "")
           backgroundFailure eq_refl).
Defined.

Lemma earlier_generatePromptFromImage_requests_witness :
  fst (generatePromptFromImage (fun _ => Rejected "503") "produto.png")
  = Rejected describeFailure
  /\ describeFailure = describeFailure.
Proof.
  split; [reflexivity|].
  exact (proj2 (earlier_generatePromptFromImage_requests
                  (fun _ => Rejected "503") "produto.png")
           describeFailure eq_refl).
Defined.

End BackgroundExtra.

(** ** The orchestrator *)

Module AppExtra.
Import App AppFacts.

(** *** The loading caption *)

Lemma messageIndexAfter_mod (ticks : nat) : messageIndexAfter ticks = ticks mod 5.
Proof.
  induction ticks as [|n IH]; [reflexivity|].
  cbn [messageIndexAfter]. rewrite IH. unfold nextMessageIndex.
  change (List.length loadingMessages) with 5.
  rewrite Nat.Div0.add_mod_idemp_l. f_equal. lia.
Qed.

(** X14. The caption index never leaves the list: after any number of
    ticks the caption is the message at position [ticks mod 5], so the five
    messages are shown in order and the rotation repeats every five ticks. *)
Theorem loading_caption_cycles (ticks : nat) :
  currentLoadingMessage ticks = nth_error loadingMessages (ticks mod 5)
  /\ (exists message, currentLoadingMessage ticks = Some message
                      /\ In message loadingMessages)
  /\ currentLoadingMessage (ticks + 5) = currentLoadingMessage ticks.
Proof.
  unfold currentLoadingMessage. rewrite !messageIndexAfter_mod.
  split; [reflexivity|]. split.
  - assert (B : ticks mod 5 < 5) by (apply Nat.mod_upper_bound; lia).
    destruct (nth_error loadingMessages (ticks mod 5)) as [message|] eqn:E.
    + exists message. split; [reflexivity | now apply nth_error_In in E].
    + apply nth_error_None in E. change (List.length loadingMessages) with 5 in E. lia.
  - f_equal. replace (ticks + 5) with (ticks + 1 * 5) by lia.
    apply Nat.Div0.mod_add.
Qed.

(** *** Download *)

Lemma not_falsy (v : option string) :
  falsy v = false -> exists x, v = Some x /\ x <> "".
Proof.
  destruct v as [[|c x]|]; simpl; intro H; try discriminate.
  exists (String c x). split; [reflexivity | discriminate].
Qed.

(** X15. Whenever the download button is enabled, the preview shows the
    final image and nothing is loading, and [handleDownload] downloads that
    image under the fixed file name. *)
Theorem download_matches_preview (s : WorkflowState) :
  downloadOffered s = true ->
  exists uri,
    finalImageURI s = Some uri
    /\ handleDownload s = Some {| href := uri; download := "story-profissional.png" |}
    /\ showsFinalImage s = true /\ showsLoading s = false.
Proof.
  unfold downloadOffered, handleDownload, showsFinalImage, showsLoading.
  intro H. apply andb_true_iff in H. destruct H as [_ H].
  apply negb_true_iff in H. apply orb_false_iff in H. destruct H as [H L2].
  apply orb_false_iff in H. destruct H as [F L1].
  destruct (not_falsy _ F) as (uri & E & _).
  exists uri. rewrite F, L1, L2, E. repeat split.
Qed.

Lemma download_matches_preview_witness :
  downloadOffered (state storyShown) = true
  /\ exists uri,
       finalImageURI (state storyShown) = Some uri
       /\ handleDownload (state storyShown)
          = Some {| href := uri; download := "story-profissional.png" |}
       /\ showsFinalImage (state storyShown) = true
       /\ showsLoading (state storyShown) = false.
Proof.
  split; [reflexivity|].
  exact (download_matches_preview (state storyShown) eq_refl).
Defined.

(** *** Handlers and their buttons *)

(** The component after [handleUrlImport] on a non-empty address. *)
Lemma import_launched (m : Component) :
  productUrl (state m) <> "" ->
  step ClickImport m =
  {| state := {| productImage := None; prompt := defaultPrompt;
                 isLoading := false; error := None; finalImageURI := None;
                 productUrl := ""; isLoadingUrl := true;
                 isGeneratingPrompt := isGeneratingPrompt (state m) |};
     fileInput := "";
     pending := (pending m ++ [UrlToDataUrl (productUrl (state m))])%list |}.
Proof.
  intro H. unfold step, dispatch, handleUrlImport.
  destruct (productUrl (state m)) eqn:E; [congruence|]. simpl.
  rewrite render_no_product; reflexivity.
Qed.

(** The component after a file has been chosen. *)
Lemma file_chosen (m : Component) (file : string) :
  step (ChooseFile file) m =
  {| state := {| productImage := None; prompt := defaultPrompt;
                 isLoading := false; error := None; finalImageURI := None;
                 productUrl := ""; isLoadingUrl := false;
                 isGeneratingPrompt := isGeneratingPrompt (state m) |};
     fileInput := "";
     pending := (pending m ++ [ReadAsDataURL file])%list |}.
Proof.
  unfold step, dispatch. simpl. rewrite render_no_product; reflexivity.
Qed.

(** The component after [handleGenerate] passes its guard, before the
    render. *)
Lemma generate_committed (m : Component) (image : string) :
  productImage (state m) = Some image -> image <> "" -> prompt (state m) <> "" ->
  commit (handleGenerate (state m)) m =
  {| state := {| productImage := Some image; prompt := prompt (state m);
                 isLoading := true; error := None; finalImageURI := None;
                 productUrl := productUrl (state m);
                 isLoadingUrl := isLoadingUrl (state m);
                 isGeneratingPrompt := isGeneratingPrompt (state m) |};
     fileInput := fileInput m;
     pending := (pending m ++ [ComposeStoryImage image (prompt (state m))])%list |}.
Proof.
  intros Hp Hne Hs. unfold handleGenerate.
  rewrite Hp, (falsy_present _ Hne).
  destruct (prompt (state m)) eqn:E; [congruence|]. simpl.
  rewrite Hp, E. reflexivity.
Qed.

(** X16. An enabled button is never a dead click: the import button
    launches the normalization of the typed address, the suggestion button
    the description of the product image, and the generate button the
    composition of the product image with the current scene. *)
Theorem enabled_buttons_launch (m : Component) :
  (offered ClickImport m = true ->
   pending (step ClickImport m)
   = (pending m ++ [UrlToDataUrl (productUrl (state m))])%list)
  /\ (offered ClickSuggest m = true ->
      exists image,
        productImage (state m) = Some image
        /\ pending (step ClickSuggest m)
           = (pending m ++ [GeneratePromptFromImage image])%list)
  /\ (offered ClickGenerate m = true ->
      exists image,
        productImage (state m) = Some image
        /\ In (ComposeStoryImage image (prompt (state m)))
              (pending (step ClickGenerate m))
        /\ isLoading (state (step ClickGenerate m)) = true).
Proof.
  unfold offered. repeat split.
  - intro H. apply negb_true_iff, orb_false_iff in H. destruct H as [H _].
    rewrite import_launched; [reflexivity|].
    intro E. rewrite E in H. discriminate.
  - intro H. apply negb_true_iff, orb_false_iff in H. destruct H as [H _].
    apply orb_false_iff in H. destruct H as [H _].
    destruct (not_falsy _ H) as (image & Hp & Hne).
    exists image. split; [assumption|].
    now rewrite (suggest_launches m image Hp Hne).
  - intro H. apply negb_true_iff in H.
    repeat (apply orb_false_iff in H; destruct H as [H ?]).
    destruct (not_falsy _ H) as (image & Hp & Hne).
    assert (Hs : prompt (state m) <> "").
    { intro E. rewrite E in *. discriminate. }
    exists image. split; [assumption|].
    unfold step, dispatch.
    rewrite (generate_committed m image Hp Hne Hs).
    match goal with |- context [render ?p ?c] =>
      destruct (render_cases p c) as [-> | (i & Hi & Hn & _ & _ & ->)] end.
    + simpl. split; [|reflexivity]. apply in_or_app. right. now left.
    + rewrite (suggest_launches _ i Hi Hn). simpl. split; [|reflexivity].
      apply in_or_app. left. apply in_or_app. right. now left.
Qed.

Lemma enabled_buttons_launch_witness :
  offered ClickImport urlTyped = true
  /\ pending (step ClickImport urlTyped)
     = (pending urlTyped ++ [UrlToDataUrl (productUrl (state urlTyped))])%list.
Proof.
  split; [reflexivity|].
  exact (proj1 (enabled_buttons_launch urlTyped) eq_refl).
Defined.

(** *** Acquisition from a file *)

(** X17. Choosing a file and reading it as a non-empty data URL resets the
    workflow, installs the image and starts its description: every field
    has its initial value except the product image and the raised
    description flag, and exactly one description call is added. *)
Theorem file_acquisition_installs_image (m : Component) (file image : string) :
  image <> "" ->
  step (Settle (ReadAsDataURL file) (Resolved image)) (step (ChooseFile file) m) =
  {| state := {| productImage := Some image; prompt := defaultPrompt;
                 isLoading := false; error := None; finalImageURI := None;
                 productUrl := ""; isLoadingUrl := false;
                 isGeneratingPrompt := true |};
     fileInput := "";
     pending := (remove_first (ReadAsDataURL file)
                   (pending m ++ [ReadAsDataURL file])
                 ++ [GeneratePromptFromImage image])%list |}.
Proof.
  intro Hne. rewrite file_chosen. unfold step.
  cbn [pending state fileInput]. rewrite existsb_last.
  unfold dispatch, render, deps_changed. simpl.
  unfold analyzeEffect, handleAnalyzeImage. simpl.
  destruct image as [|c image]; [congruence|]. reflexivity.
Qed.

Lemma file_acquisition_installs_image_witness :
  sampleImage <> ""
  /\ step (Settle (ReadAsDataURL "produto.png") (Resolved sampleImage))
          (step (ChooseFile "produto.png") storyShown) =
     {| state := {| productImage := Some sampleImage; prompt := defaultPrompt;
                    isLoading := false; error := None; finalImageURI := None;
                    productUrl := ""; isLoadingUrl := false;
                    isGeneratingPrompt := true |};
        fileInput := "";
        pending := (remove_first (ReadAsDataURL "produto.png")
                      (pending storyShown ++ [ReadAsDataURL "produto.png"])
                    ++ [GeneratePromptFromImage sampleImage])%list |}.
Proof.
  assert (A : sampleImage <> "") by discriminate.
  split; [exact A|].
  exact (file_acquisition_installs_image storyShown "produto.png" sampleImage A).
Defined.

(** X18. A file that cannot be read fails silently: the workflow is left
    as [reset()] leaves it, with no product image, no error message and no
    description call. *)
Theorem failed_file_read_is_silent (m : Component) (file message : string) :
  let m' := step (Settle (ReadAsDataURL file) (Rejected message))
                 (step (ChooseFile file) m) in
  state m' = state (reset m)
  /\ error (state m') = None /\ productImage (state m') = None
  /\ pending m' = remove_first (ReadAsDataURL file) (pending m ++ [ReadAsDataURL file]).
Proof.
  cbv zeta. rewrite file_chosen, reset_state. unfold step.
  cbn [pending state fileInput]. rewrite existsb_last.
  unfold dispatch. rewrite render_no_product by reflexivity.
  simpl. repeat split.
Qed.

(** *** Acquisition from an address *)

Lemma import_settles (m : Component) (o : Outcome string) :
  productUrl (state m) <> "" ->
  acquireFromUrl o m =
  step (Settle (UrlToDataUrl (productUrl (state m))) o) (step ClickImport m).
Proof.
  intro H. unfold acquireFromUrl, handleUrlImport.
  destruct (productUrl (state m)); [congruence | reflexivity].
Qed.

(** The state after a failed import. *)
Lemma import_failure_state (m : Component) (message : string) :
  productUrl (state m) <> "" ->
  state (acquireFromUrl (Rejected message) m) =
  {| productImage := None; prompt := defaultPrompt; isLoading := false;
     error := Some (if is_empty message then importFallback else message);
     finalImageURI := None; productUrl := ""; isLoadingUrl := false;
     isGeneratingPrompt := isGeneratingPrompt (state m) |}.
Proof.
  intro H. rewrite (import_settles m _ H), (import_launched m H).
  unfold step. cbn [pending state fileInput]. rewrite existsb_last.
  unfold dispatch. rewrite render_no_product by reflexivity. reflexivity.
Qed.

(** X19. A successful import of a non-empty data URL installs it as
    product image, empties the address field, lowers the import flag and
    starts the description; every other field has its initial value. *)
Theorem url_acquisition_installs_image (m : Component) (dataUrl : string) :
  productUrl (state m) <> "" -> dataUrl <> "" ->
  state (acquireFromUrl (Resolved dataUrl) m) =
  {| productImage := Some dataUrl; prompt := defaultPrompt; isLoading := false;
     error := None; finalImageURI := None; productUrl := "";
     isLoadingUrl := false; isGeneratingPrompt := true |}
  /\ In (GeneratePromptFromImage dataUrl)
        (pending (acquireFromUrl (Resolved dataUrl) m)).
Proof.
  intros H Hne. rewrite (import_settles m _ H), (import_launched m H).
  unfold step. cbn [pending state fileInput]. rewrite existsb_last.
  unfold dispatch, render, deps_changed. simpl.
  unfold analyzeEffect, handleAnalyzeImage. simpl.
  destruct dataUrl as [|c dataUrl]; [congruence|]. simpl.
  split; [reflexivity|]. apply in_or_app. right. now left.
Qed.

Lemma url_acquisition_installs_image_witness :
  productUrl (state urlTyped) <> "" /\ sampleImage <> ""
  /\ state (acquireFromUrl (Resolved sampleImage) urlTyped) =
     {| productImage := Some sampleImage; prompt := defaultPrompt;
        isLoading := false; error := None; finalImageURI := None;
        productUrl := ""; isLoadingUrl := false; isGeneratingPrompt := true |}.
Proof.
  assert (A : productUrl (state urlTyped) <> "") by discriminate.
  assert (B : sampleImage <> "") by discriminate.
  split; [exact A|]. split; [exact B|].
  exact (proj1 (url_acquisition_installs_image urlTyped sampleImage A B)).
Defined.

(** X20. A failed import leaves no product image and no final image,
    lowers the import flag and reports the rejection message, or the
    generic fallback when that message is empty. *)
Theorem url_acquisition_failure (m : Component) (message : string) :
  productUrl (state m) <> "" ->
  let s' := state (acquireFromUrl (Rejected message) m) in
  productImage s' = None /\ finalImageURI s' = None /\ isLoadingUrl s' = false
  /\ error s' = Some (if is_empty message then importFallback else message)
  /\ showsError s' = true.
Proof.
  intro H. cbv zeta. rewrite (import_failure_state m message H).
  unfold showsError. simpl. repeat split.
  destruct message; reflexivity.
Qed.

Lemma url_acquisition_failure_witness :
  productUrl (state urlTyped) <> ""
  /\ error (state (acquireFromUrl (Rejected "") urlTyped)) = Some importFallback.
Proof.
  assert (A : productUrl (state urlTyped) <> "") by discriminate.
  split; [exact A|].
  destruct (url_acquisition_failure urlTyped "" A) as (_ & _ & _ & H & _).
  exact H.
Defined.

Section Browser.

Variable load : string -> Normalizer.Loaded.
Variable getContext : Z * Z -> bool.
Variable toDataURL : string -> Z * Z -> option string.

(** X21. The normalizer and the import handler together: when
    [urlToDataUrl] is rejected for the submitted address, the error shown
    is exactly its message, so the generic fallback is never used on this
    path. *)
Theorem normalizer_message_is_shown (m : Component) (message : string) :
  productUrl (state m) <> "" ->
  Normalizer.urlToDataUrl load getContext toDataURL (productUrl (state m))
  = Rejected message ->
  error (state (acquireFromUrl (Rejected message) m)) = Some message
  /\ message <> importFallback.
Proof.
  intros H R. rewrite (import_failure_state m message H). simpl.
  unfold Normalizer.urlToDataUrl in R.
  destruct (load _) as [|w h].
  - injection R as <-. split; [reflexivity | discriminate].
  - destruct (getContext _).
    + destruct (toDataURL _ _); [discriminate|].
      injection R as <-. split; [reflexivity | discriminate].
    + injection R as <-. split; [reflexivity | discriminate].
Qed.

End Browser.

Lemma normalizer_message_is_shown_witness :
  productUrl (state urlTyped) <> ""
  /\ Normalizer.urlToDataUrl (fun _ => Normalizer.OnError) (fun _ => true)
       (fun _ _ => None) (productUrl (state urlTyped))
     = Rejected Normalizer.loadError
  /\ error (state (acquireFromUrl (Rejected Normalizer.loadError) urlTyped))
     = Some Normalizer.loadError.
Proof.
  assert (A : productUrl (state urlTyped) <> "") by discriminate.
  split; [exact A|]. split; [reflexivity|].
  exact (proj1 (normalizer_message_is_shown (fun _ => Normalizer.OnError)
                  (fun _ => true) (fun _ _ => None) urlTyped
                  Normalizer.loadError A eq_refl)).
Defined.

(** *** Composition *)

(** X22. [compose()] has no partial outcome: when the composition
    resolves, the final image is installed and there is no error; when it
    is rejected, the fixed composition message is set and there is no final
    image.  Either way the composing flag is lowered and the product image
    and the scene are untouched. *)
Theorem compose_settles (m : Component) (image final message : string) :
  productImage (state m) = Some image -> image <> "" -> prompt (state m) <> "" ->
  (let s' := state (step (Settle (ComposeStoryImage image (prompt (state m)))
                                 (Resolved final)) (compose m)) in
   finalImageURI s' = Some final /\ error s' = None /\ isLoading s' = false
   /\ productImage s' = Some image /\ prompt s' = prompt (state m))
  /\ (let s' := state (step (Settle (ComposeStoryImage image (prompt (state m)))
                                    (Rejected message)) (compose m)) in
      finalImageURI s' = None /\ error s' = Some composeFailure
      /\ isLoading s' = false
      /\ productImage s' = Some image /\ prompt s' = prompt (state m)).
Proof.
  intros Hp Hne Hs. cbv zeta.
  set (c := ComposeStoryImage image (prompt (state m))).
  assert (L : exists q g,
             compose m =
             {| state := {| productImage := Some image; prompt := prompt (state m);
                            isLoading := true; error := None; finalImageURI := None;
                            productUrl := productUrl (state m);
                            isLoadingUrl := isLoadingUrl (state m);
                            isGeneratingPrompt := g |};
                fileInput := fileInput m; pending := q |}
             /\ existsb (Call_eqb c) q = true).
  { unfold compose, step, dispatch.
    rewrite (generate_committed m image Hp Hne Hs).
    match goal with |- context [render ?p ?k] =>
      destruct (render_cases p k) as [-> | (i & Hi & Hn & _ & _ & ->)] end.
    - eexists _, _. split; [reflexivity | apply existsb_last].
    - rewrite (suggest_launches _ i Hi Hn). cbn [state pending fileInput] in *.
      injection Hi as <-.
      eexists _, _. split; [reflexivity|].
      rewrite existsb_app, existsb_last. reflexivity. }
  destruct L as (q & g & -> & Hq). split.
  - unfold step. cbn [pending state fileInput]. rewrite Hq. unfold dispatch.
    cbn [resume commit fold_left perform update state fileInput pending].
    match goal with |- context [render ?p ?k] =>
      destruct (render_cases p k) as [-> | (i & Hi & Hn & _ & _ & ->)] end.
    + simpl. repeat split.
    + rewrite (suggest_launches _ i Hi Hn). simpl in *. injection Hi as <-.
      repeat split.
  - unfold step. cbn [pending state fileInput]. rewrite Hq. unfold dispatch.
    rewrite render_same_deps by reflexivity. simpl. repeat split.
Qed.

Lemma compose_settles_witness :
  productImage (state analysed) = Some sampleImage /\ sampleImage <> ""
  /\ prompt (state analysed) <> ""
  /\ finalImageURI
       (state (step (Settle (ComposeStoryImage sampleImage (prompt (state analysed)))
                            (Resolved sampleFinal)) (compose analysed)))
     = Some sampleFinal.
Proof.
  assert (A : sampleImage <> "") by discriminate.
  assert (B : prompt (state analysed) <> "") by discriminate.
  split; [reflexivity|]. split; [exact A|]. split; [exact B|].
  destruct (compose_settles analysed sampleImage sampleFinal "falha" eq_refl A B)
    as [(H & _) _].
  exact H.
Defined.

(** X23. [reset()] cancels nothing.  A composition still in flight
    installs its result after the reset, leaving a final image on display
    with no product image and no download button; a description still in
    flight replaces the restored default scene. *)
Theorem reset_does_not_cancel (m : Component) (image scene final text : string) :
  (existsb (Call_eqb (ComposeStoryImage image scene)) (pending m) = true ->
   final <> "" ->
   let s' := state (step (Settle (ComposeStoryImage image scene) (Resolved final))
                         (reset m)) in
   productImage s' = None /\ finalImageURI s' = Some final
   /\ showsFinalImage s' = true /\ downloadOffered s' = false)
  /\ (existsb (Call_eqb (GeneratePromptFromImage image)) (pending m) = true ->
      prompt (state (step (Settle (GeneratePromptFromImage image) (Resolved text))
                          (reset m))) = text).
Proof.
  split.
  - intros H Hne. cbv zeta. rewrite reset_component. unfold step.
    cbn [pending state fileInput]. rewrite H. unfold dispatch.
    rewrite render_no_product by reflexivity.
    unfold showsFinalImage, downloadOffered. simpl.
    destruct final; [congruence|]. repeat split.
  - intro H. rewrite describe_settles; [reflexivity|].
    rewrite reset_component. exact H.
Qed.

Lemma reset_does_not_cancel_witness :
  existsb (Call_eqb (ComposeStoryImage sampleImage "T1")) (pending (compose analysed))
  = true
  /\ sampleFinal <> ""
  /\ productImage
       (state (step (Settle (ComposeStoryImage sampleImage "T1") (Resolved sampleFinal))
                    (reset (compose analysed)))) = None
  /\ finalImageURI
       (state (step (Settle (ComposeStoryImage sampleImage "T1") (Resolved sampleFinal))
                    (reset (compose analysed)))) = Some sampleFinal.
Proof.
  assert (A : sampleFinal <> "") by discriminate.
  split; [reflexivity|]. split; [exact A|].
  destruct (proj1 (reset_does_not_cancel (compose analysed) sampleImage "T1"
                     sampleFinal "T2") eq_refl A) as (H1 & H2 & _).
  split; assumption.
Defined.

(** *** Description *)

(** X24. A successful [describePrompt()] replaces the scene with the
    generated text, clears the error and lowers its flag; the product
    image, the final image, the address and the other flags are as
    before. *)
Theorem describePrompt_success (m : Component) (image text : string) :
  productImage (state m) = Some image -> image <> "" ->
  state (describePrompt (Resolved text) m) =
  {| productImage := Some image; prompt := text;
     isLoading := isLoading (state m); error := None;
     finalImageURI := finalImageURI (state m);
     productUrl := productUrl (state m);
     isLoadingUrl := isLoadingUrl (state m);
     isGeneratingPrompt := false |}.
Proof.
  intros Hp Hne. rewrite (describePrompt_unfold m image _ Hp Hne).
  rewrite describe_settles
    by (rewrite (suggest_launches m image Hp Hne); apply existsb_last).
  rewrite (suggest_launches m image Hp Hne). reflexivity.
Qed.

Lemma describePrompt_success_witness :
  productImage (state storyShown) = Some sampleImage /\ sampleImage <> ""
  /\ state (describePrompt (Resolved "T2") storyShown) =
     {| productImage := Some sampleImage; prompt := "T2";
        isLoading := isLoading (state storyShown); error := None;
        finalImageURI := finalImageURI (state storyShown);
        productUrl := productUrl (state storyShown);
        isLoadingUrl := isLoadingUrl (state storyShown);
        isGeneratingPrompt := false |}.
Proof.
  assert (A : sampleImage <> "") by discriminate.
  split; [reflexivity|]. split; [exact A|].
  exact (describePrompt_success storyShown sampleImage "T2" eq_refl A).
Defined.

Section Remote.

Variable generateContent : Gateway.Request -> Outcome Gateway.Response.

(** X25. The gateway and the description handler together: when the
    stored product image is not a well-formed data URL, the description
    fails without any request to the remote model, and the workflow shows
    the manual-description message with the default scene. *)
Theorem malformed_product_image_fails_locally (m : Component) (image : string) :
  productImage (state m) = Some image -> image <> "" ->
  Gateway.regex_match image = None ->
  snd (Gateway.generatePromptFromImage generateContent image) = []
  /\ let s' := state (describePrompt
                        (fst (Gateway.generatePromptFromImage generateContent image))
                        m) in
     error s' = Some analyzeFailure /\ prompt s' = defaultPrompt
     /\ isGeneratingPrompt s' = false.
Proof.
  intros Hp Hne R. cbv zeta.
  unfold Gateway.generatePromptFromImage, Gateway.generatePromptFromImage_try.
  rewrite R. cbn [Gateway.catch_rethrow fst snd].
  split; [reflexivity|].
  rewrite (describePrompt_unfold m image _ Hp Hne).
  rewrite describe_settles
    by (rewrite (suggest_launches m image Hp Hne); apply existsb_last).
  repeat split.
Qed.

End Remote.

Lemma malformed_product_image_fails_locally_witness :
  Gateway.regex_match "data:," = None
  /\ error (state (describePrompt
                     (fst (Gateway.generatePromptFromImage
                             (fun _ => Rejected "503") "data:,"))
                     (step (Settle (ReadAsDataURL "vazio.png") (Resolved "data:,"))
                           (step (ChooseFile "vazio.png") mounted))))
     = Some analyzeFailure.
Proof.
  split; [reflexivity|].
  destruct (malformed_product_image_fails_locally (fun _ => Rejected "503")
              (step (Settle (ReadAsDataURL "vazio.png") (Resolved "data:,"))
                    (step (ChooseFile "vazio.png") mounted))
              "data:," eq_refl ltac:(discriminate) eq_refl) as (_ & H & _).
  exact H.
Defined.

Lemma compose_first_time_witness :
  productImage (state analysed) = Some sampleImage /\ sampleImage <> ""
  /\ prompt (state analysed) <> "" /\ finalImageURI (state analysed) = None
  /\ pending (compose analysed)
     = (pending analysed
        ++ [ComposeStoryImage sampleImage (prompt (state analysed))])%list.
Proof.
  assert (A : sampleImage <> "") by discriminate.
  assert (B : prompt (state analysed) <> "") by discriminate.
  split; [reflexivity|]. split; [exact A|]. split; [exact B|].
  split; [reflexivity|].
  exact (compose_first_time analysed sampleImage eq_refl A B eq_refl).
Defined.

(** *** Loading flags *)

Lemma Call_eqb_eq (a b : Call) : Call_eqb a b = true -> a = b.
Proof.
  destruct a, b; simpl; intro H; try discriminate;
    try (apply String.eqb_eq in H; now subst).
  apply andb_true_iff in H. destruct H as [H1 H2].
  apply String.eqb_eq in H1, H2. now subst.
Qed.

Lemma existsb_remove_other (K : Call -> bool) (c : Call) (l : list Call) :
  K c = false -> existsb K (remove_first c l) = existsb K l.
Proof.
  intro H. induction l as [|d l IH]; [reflexivity|]. simpl.
  destruct (Call_eqb c d) eqn:E.
  - apply Call_eqb_eq in E. subst d. now rewrite H.
  - simpl. now rewrite IH.
Qed.

Ltac backed :=
  let F := fresh "F" in
  intro F; try discriminate;
  rewrite ?existsb_app, ?existsb_remove_other by reflexivity;
  cbn [existsb isCompose isImport isDescribe orb];
  rewrite ?orb_false_r, ?orb_true_r; auto.

Lemma render_backed (prev : WorkflowState) (m : Component) :
  flagsBacked m -> flagsBacked (render prev m).
Proof.
  intros (H1 & H2 & H3).
  destruct (render_cases prev m) as [-> | (i & Hi & Hn & _ & _ & ->)].
  - repeat split; assumption.
  - rewrite (suggest_launches m i Hi Hn). unfold flagsBacked. simpl.
    repeat split; backed.
Qed.

Lemma step_backed (e : Event) (m : Component) :
  flagsBacked m -> flagsBacked (step e m).
Proof.
  intro H. destruct e as [file|url|text| | | | |c o].
  - rewrite file_chosen. destruct H as (H1 & H2 & H3).
    unfold flagsBacked. simpl. repeat split; backed.
  - unfold step, dispatch. apply render_backed. destruct H as (H1 & H2 & H3).
    unfold flagsBacked. simpl. repeat split; backed.
  - unfold step, dispatch. apply render_backed. destruct H as (H1 & H2 & H3).
    unfold flagsBacked. simpl. repeat split; backed.
  - destruct (productUrl (state m)) eqn:E.
    + unfold step, handleUrlImport. rewrite E. simpl. now rewrite dispatch_nil.
    + rewrite import_launched by (rewrite E; discriminate).
      destruct H as (H1 & H2 & H3).
      unfold flagsBacked. simpl. repeat split; backed.
  - destruct (falsy (productImage (state m))) eqn:E.
    + unfold step, handleAnalyzeImage. rewrite E. now rewrite dispatch_nil.
    + destruct (not_falsy _ E) as (image & Hp & Hne).
      rewrite (suggest_launches m image Hp Hne).
      destruct H as (H1 & H2 & H3).
      unfold flagsBacked. simpl. repeat split; backed.
  - destruct (is_empty (prompt (state m)) || falsy (productImage (state m))) eqn:E.
    + unfold step, handleGenerate. rewrite E. now rewrite dispatch_nil.
    + apply orb_false_iff in E. destruct E as [Es Ep].
      destruct (not_falsy _ Ep) as (image & Hp & Hne).
      assert (Hs : prompt (state m) <> "").
      { intro X. rewrite X in Es. discriminate. }
      unfold step, dispatch. apply render_backed.
      rewrite (generate_committed m image Hp Hne Hs).
      destruct H as (H1 & H2 & H3).
      unfold flagsBacked. simpl. repeat split; backed.
  - change (step ClickReset m) with (reset m). rewrite reset_component.
    destruct H as (H1 & H2 & H3).
    unfold flagsBacked. simpl. repeat split; backed.
  - unfold step. destruct (existsb (Call_eqb c) (pending m)); [|exact H].
    unfold dispatch. apply render_backed. destruct H as (H1 & H2 & H3).
    destruct c, o; unfold flagsBacked; simpl; repeat split; backed.
Qed.

Lemma run_backed (es : list Event) (m : Component) :
  flagsBacked m -> flagsBacked (run es m).
Proof.
  revert m. induction es as [|e es IH]; intros m H; [exact H|].
  simpl. apply IH. now apply step_backed.
Qed.

(** X26. No loading flag is ever stuck: after any sequence of user
    actions and settlements, in any order and with any outcomes, each
    raised flag (composing, importing, describing) has an operation of its
    kind still in flight, whose settlement lowers it. *)
Theorem loading_flags_are_backed (es : list Event) :
  flagsBacked (run es mounted)
  /\ forall c o,
       existsb (Call_eqb c) (pending (run es mounted)) = true ->
       let s' := state (step (Settle c o) (run es mounted)) in
       (isCompose c = true -> isLoading s' = false)
       /\ (isImport c = true -> isLoadingUrl s' = false)
       /\ (isDescribe c = true -> isGeneratingPrompt s' = false).
Proof.
  split.
  - apply run_backed. unfold flagsBacked. simpl. repeat split; discriminate.
  - intros c o Hin. cbv zeta. unfold step. rewrite Hin. unfold dispatch.
    repeat split; intro K; destruct c; try discriminate.
    + destruct o.
      * match goal with |- context [render ?p ?k] =>
          destruct (render_cases p k) as [-> | (i & Hi & Hn & _ & _ & ->)] end;
          [reflexivity|].
        now rewrite (suggest_launches _ i Hi Hn).
      * rewrite render_same_deps; reflexivity.
    + destruct o.
      * match goal with |- context [render ?p ?k] =>
          destruct (render_cases p k) as [-> | (i & Hi & Hn & _ & _ & ->)] end;
          [reflexivity|].
        now rewrite (suggest_launches _ i Hi Hn).
      * rewrite render_same_deps; reflexivity.
    + destruct o; rewrite render_same_deps; reflexivity.
Qed.

Lemma loading_flags_are_backed_witness :
  existsb (Call_eqb (ComposeStoryImage sampleImage "T1"))
          (pending (run [ChooseFile "produto.png";
                         Settle (ReadAsDataURL "produto.png") (Resolved sampleImage);
                         Settle (GeneratePromptFromImage sampleImage) (Resolved "T1");
                         ClickGenerate] mounted)) = true
  /\ isLoading
       (state (step (Settle (ComposeStoryImage sampleImage "T1") (Rejected "503"))
                    (run [ChooseFile "produto.png";
                          Settle (ReadAsDataURL "produto.png") (Resolved sampleImage);
                          Settle (GeneratePromptFromImage sampleImage) (Resolved "T1");
                          ClickGenerate] mounted))) = false.
Proof.
  split; [reflexivity|].
  exact (proj1 (proj2 (loading_flags_are_backed
                         [ChooseFile "produto.png";
                          Settle (ReadAsDataURL "produto.png") (Resolved sampleImage);
                          Settle (GeneratePromptFromImage sampleImage) (Resolved "T1");
                          ClickGenerate])
                      (ComposeStoryImage sampleImage "T1") (Rejected "503") eq_refl)
               eq_refl).
Defined.

End AppExtra.
